(** * The persistence layer of the UFO Sighting Bot

    A shallow embedding of [src/utils/database.py] and [src/utils/tickets.py]:
    the connection guard [get_db_connection], the key-value, reaction and
    ticket stores built on it, and the ticket helpers of [tickets.py].

    Modelling conventions.
    - The storage file is a record of tables; a table with a PRIMARY KEY (or a
      UNIQUE constraint) is a finite map from the key to the rest of the row.
    - Python [int] and SQLite INTEGER are [Z]; Discord ids are [Z].
    - A timestamp (the text SQLite's CURRENT_TIMESTAMP writes, the text
      [datetime.isoformat] writes and [datetime.fromisoformat] reads back) is
      the number of microseconds it denotes, a [Z], counted from
      0001-01-01T00:00:00; the dates [datetime] can hold are those from
      [datetime_min] to [datetime_max], and arithmetic that leaves them
      raises [OverflowError].
    - [threading.Lock] is not reentrant: acquiring it while it is held blocks,
      and in a single thread that is for ever.  An operation therefore has one
      of three outcomes: it returns, it raises, or it blocks.
    - The clocks and [os.urandom] are read from the process state, one
      reading per call.
    - Left to the engine and the Python library, outside the model: the
      64-bit range of stored integers (a statement about sums of arbitrary
      amounts assumes it, [counts_fit]), the text format of timestamps, and
      keyword arguments of [update_ticket] that name no column of [tickets]
      (the updates are the columns other than the key, each with a value of
      its column's type). *)

From Stdlib Require Import ZArith String Ascii List Bool Lia.
From stdpp Require Import base option gmap strings list sorting fin_maps pretty.

Local Open Scope Z_scope.

(** ** Rows and tables *)

Definition timestamp := Z.

(* guild_config(guild_id PK, channel_id, log_channel_id, support_channel_id,
   created_at, updated_at) *)
Record GuildConfig := mkGuildConfig {
  channel_id : option Z;
  log_channel_id : option Z;
  support_channel_id : option Z;
  gc_created_at : timestamp;
  gc_updated_at : timestamp
}.

(* user_reactions(guild_id, user_id, reaction_count, last_reaction_at,
   created_at, updated_at, UNIQUE(guild_id, user_id)); the autoincrement row
   number is not part of any operation below and is left out. *)
Record UserReaction := mkUserReaction {
  reaction_count : Z;
  last_reaction_at : option timestamp;
  ur_created_at : timestamp;
  ur_updated_at : timestamp
}.

(* admin_users(user_id PK, added_at) *)
Record AdminUser := mkAdminUser { added_at : timestamp }.

(* banned_users(user_id PK, reason, banned_by, banned_at) *)
Record BannedUser := mkBannedUser {
  reason : option string;
  banned_by : option Z;
  banned_at : timestamp
}.

(* tickets(ticket_id PK, user_id, user_name, guild_id, guild_name, message,
   status, created_at, admin_response, admin_responder, response_timestamp,
   closed_by, closed_timestamp) *)
Record Ticket := mkTicket {
  user_id : Z;
  user_name : string;
  guild_id : Z;
  guild_name : string;
  message : string;
  status : string;
  created_at : timestamp;
  admin_response : option string;
  admin_responder : option string;
  response_timestamp : option timestamp;
  closed_by : option string;
  closed_timestamp : option timestamp
}.

Record DB := mkDB {
  guild_config : gmap Z GuildConfig;
  user_reactions : gmap (Z * Z) UserReaction;
  admin_users : gmap Z AdminUser;
  banned_users : gmap Z BannedUser;
  tickets : gmap string Ticket
}.

Definition empty_db : DB := mkDB ∅ ∅ ∅ ∅ ∅.

Definition with_guild_config (f : gmap Z GuildConfig → gmap Z GuildConfig) (d : DB) : DB :=
  mkDB (f (guild_config d)) (user_reactions d) (admin_users d) (banned_users d) (tickets d).
Definition with_user_reactions (f : gmap (Z * Z) UserReaction → gmap (Z * Z) UserReaction) (d : DB) : DB :=
  mkDB (guild_config d) (f (user_reactions d)) (admin_users d) (banned_users d) (tickets d).
Definition with_admin_users (f : gmap Z AdminUser → gmap Z AdminUser) (d : DB) : DB :=
  mkDB (guild_config d) (user_reactions d) (f (admin_users d)) (banned_users d) (tickets d).
Definition with_banned_users (f : gmap Z BannedUser → gmap Z BannedUser) (d : DB) : DB :=
  mkDB (guild_config d) (user_reactions d) (admin_users d) (f (banned_users d)) (tickets d).
Definition with_tickets (f : gmap string Ticket → gmap string Ticket) (d : DB) : DB :=
  mkDB (guild_config d) (user_reactions d) (admin_users d) (banned_users d) (f (tickets d)).

(** ** The process: lock, storage file, clocks, entropy *)

Inductive event :=
| EvAcquire          (* db_lock acquired *)
| EvAcquireWhileHeld (* db_lock requested while it is held: the caller blocks *)
| EvMakedirs         (* os.makedirs(..., exist_ok=True) *)
| EvConnect          (* sqlite3.connect *)
| EvCommit           (* conn.commit() *)
| EvRollback         (* conn.rollback() *)
| EvClose            (* conn.close() *)
| EvRelease.         (* db_lock released *)

Global Instance event_eq_dec : EqDecision event.
Proof. solve_decision. Defined.

Record World := mkWorld {
  db_file : DB;                 (* the committed content of DB_FILE *)
  db_lock : bool;               (* true when db_lock is held *)
  open_connections : nat;       (* connections opened and not yet closed *)
  trace : list event;           (* what the guard did, oldest first *)
  ticks : nat;                  (* clock readings taken so far *)
  utc_clock : nat → timestamp;  (* CURRENT_TIMESTAMP at each reading *)
  local_clock : nat → timestamp;(* datetime.now() at each reading *)
  draws : nat;                  (* os.urandom(16) calls made so far *)
  urandom : nat → Z             (* the 16 bytes of each call, as a number *)
}.

Definition set_db_file (d : DB) (w : World) : World :=
  mkWorld d (db_lock w) (open_connections w) (trace w) (ticks w)
          (utc_clock w) (local_clock w) (draws w) (urandom w).
Definition set_db_lock (b : bool) (w : World) : World :=
  mkWorld (db_file w) b (open_connections w) (trace w) (ticks w)
          (utc_clock w) (local_clock w) (draws w) (urandom w).
Definition set_open_connections (n : nat) (w : World) : World :=
  mkWorld (db_file w) (db_lock w) n (trace w) (ticks w)
          (utc_clock w) (local_clock w) (draws w) (urandom w).
Definition log (e : event) (w : World) : World :=
  mkWorld (db_file w) (db_lock w) (open_connections w) (trace w ++ [e]) (ticks w)
          (utc_clock w) (local_clock w) (draws w) (urandom w).
Definition tick (w : World) : World :=
  mkWorld (db_file w) (db_lock w) (open_connections w) (trace w) (S (ticks w))
          (utc_clock w) (local_clock w) (draws w) (urandom w).
Definition draw (w : World) : World :=
  mkWorld (db_file w) (db_lock w) (open_connections w) (trace w) (ticks w)
          (utc_clock w) (local_clock w) (S (draws w)) (urandom w).

(** ** Exceptions and outcomes *)

Inductive exn :=
| IntegrityError                     (* sqlite3.IntegrityError *)
| PyException (name : string)        (* any other subclass of Exception *)
| PyBaseException (name : string).   (* KeyboardInterrupt, SystemExit, ... *)

(* isinstance(e, Exception) *)
Definition is_Exception (e : exn) : bool :=
  match e with
  | PyBaseException _ => false
  | _ => true
  end.

Inductive outcome (A : Type) :=
| Ret (a : A) (w : World)
| Raise (e : exn) (w : World)
| Blocked (w : World).
Arguments Ret {A} a w.
Arguments Raise {A} e w.
Arguments Blocked {A} w.

Definition world_of {A} (o : outcome A) : World :=
  match o with
  | Ret _ w | Raise _ w | Blocked w => w
  end.

(* the value an operation returned, if it returned *)
Definition result_of {A} (o : outcome A) : option A :=
  match o with
  | Ret a _ => Some a
  | _ => None
  end.

(* the exception an operation raised, if it raised *)
Definition raised_of {A} (o : outcome A) : option exn :=
  match o with
  | Raise e _ => Some e
  | _ => None
  end.

(* An operation of the process. *)
Definition Op (A : Type) := World → outcome A.

Definition ret {A} (a : A) : Op A := fun w => Ret a w.
Definition raise {A} (e : exn) : Op A := fun w => Raise e w.
Definition bind {A B} (m : Op A) (k : A → Op B) : Op B := fun w =>
  match m w with
  | Ret a w' => k a w'
  | Raise e w' => Raise e w'
  | Blocked w' => Blocked w'
  end.

Notation "'do' x <- m ; k" := (bind m (fun x => k))
  (at level 10, x name, m at level 100, k at level 200).

(* for x in xs: body(x), the values of the body dropped *)
Fixpoint for_each {A B} (xs : list A) (body : A → Op B) : Op unit :=
  match xs with
  | [] => ret tt
  | x :: rest => do _r <- body x; for_each rest body
  end.

(** ** Python dicts with str keys, in insertion order *)

(* d.get(key) *)
Fixpoint dict_get {V} (key : string) (d : list (string * V)) : option V :=
  match d with
  | [] => None
  | (k, v) :: rest => if decide (k = key) then Some v else dict_get key rest
  end.

(* d[key] = v: in place when the key is there, at the end when it is not *)
Fixpoint dict_set {V} (key : string) (v : V) (d : list (string * V)) : list (string * V) :=
  match d with
  | [] => [(key, v)]
  | (k, v0) :: rest =>
      if decide (k = key) then (k, v) :: rest else (k, v0) :: dict_set key v rest
  end.

(* datetime.now() *)
Definition datetime_now : Op timestamp := fun w => Ret (local_clock w (ticks w)) (tick w).
(* CURRENT_TIMESTAMP, as the engine evaluates it for one statement *)
Definition current_timestamp : Op timestamp := fun w => Ret (utc_clock w (ticks w)) (tick w).

(** ** The connection guard *)

(* A connection is the content of the file as the open transaction sees it. *)
Definition Conn := DB.

Definition commit (conn : Conn) (w : World) : World := log EvCommit (set_db_file conn w).
Definition rollback (w : World) : World := log EvRollback w.
Definition close (w : World) : World :=
  log EvClose (set_open_connections (pred (open_connections w)) w).
Definition release (w : World) : World := log EvRelease (set_db_lock false w).
Definition connect (w : World) : World :=
  log EvConnect (set_open_connections (S (open_connections w)) (log EvMakedirs w)).

(* with db_lock: ...; os.makedirs(...); conn = sqlite3.connect(DB_FILE) *)
Definition enter (w : World) : World := connect (set_db_lock true (log EvAcquire w)).

(* [with get_db_connection() as conn: body].  The body works on the
   connection and may call into the rest of the process; it hands back its
   value together with the connection as it left it. *)
Definition get_db_connection {A} (body : Conn → Op (A * Conn)) : Op A := fun w =>
  if db_lock w then
    (* with db_lock: the lock is taken, the caller waits *)
    Blocked (log EvAcquireWhileHeld w)
  else
    let w1 := enter w in
    let conn := db_file w1 in
    match body conn w1 with
    | Ret (a, conn') w2 =>
        (* yield returned: conn.commit(); finally conn.close(); lock released *)
        Ret a (release (close (commit conn' w2)))
    | Raise e w2 =>
        (* except Exception: conn.rollback(); raise; finally conn.close() *)
        Raise e (release (close (if is_Exception e then rollback w2 else w2)))
    | Blocked w2 => Blocked w2
    end.

(* cursor.execute(...): the statement fails with an exception, or yields its
   result and the connection as the statement left it. *)
Definition execute {A} (r : exn + (A * Conn)) : Op (A * Conn) :=
  match r with
  | inl e => raise e
  | inr x => ret x
  end.

(* try: m  except sqlite3.IntegrityError: h *)
Definition try_except_IntegrityError {A} (m h : Op A) : Op A := fun w =>
  match m w with
  | Raise IntegrityError w' => h w'
  | o => o
  end.

Definition nested_acquisitions (w : World) : nat :=
  count_occ event_eq_dec (trace w) EvAcquireWhileHeld.

(** ** Truthiness of the optional arguments the code tests with [if x:] *)

(* [if s:] for s a str or None *)
Definition truthy_str (s : option string) : bool :=
  match s with
  | Some EmptyString => false
  | Some _ => true
  | None => false
  end.

(** ** database.py *)

Module Database.

(** *** SQL statements, as functions on the connection *)

(* cursor.rowcount after a statement whose WHERE clause names a key *)
Definition rowcount {A} (row : option A) : Z :=
  match row with
  | Some _ => 1
  | None => 0
  end.

(* SELECT * FROM guild_config WHERE guild_id = ? ; fetchone() *)
Definition select_guild_config (g : Z) (conn : Conn) : option GuildConfig :=
  guild_config conn !! g.

(* The SET clauses set_guild_config puts in its UPDATE. *)
Inductive guild_assignment :=
| SetChannelId (v : Z)           (* "channel_id = ?" *)
| SetLogChannelId (v : Z)        (* "log_channel_id = ?" *)
| SetSupportChannelId (v : Z)    (* "support_channel_id = ?" *)
| SetUpdatedAtNow.               (* "updated_at = CURRENT_TIMESTAMP" *)

Definition assign_guild (now : timestamp) (r : GuildConfig) (a : guild_assignment) : GuildConfig :=
  match a with
  | SetChannelId v =>
      mkGuildConfig (Some v) (log_channel_id r) (support_channel_id r) (gc_created_at r) (gc_updated_at r)
  | SetLogChannelId v =>
      mkGuildConfig (channel_id r) (Some v) (support_channel_id r) (gc_created_at r) (gc_updated_at r)
  | SetSupportChannelId v =>
      mkGuildConfig (channel_id r) (log_channel_id r) (Some v) (gc_created_at r) (gc_updated_at r)
  | SetUpdatedAtNow =>
      mkGuildConfig (channel_id r) (log_channel_id r) (support_channel_id r) (gc_created_at r) now
  end.

(* UPDATE guild_config SET <updates> WHERE guild_id = ? *)
Definition update_guild_config (updates : list guild_assignment) (g : Z)
    (now : timestamp) (conn : Conn) : exn + (unit * Conn) :=
  inr (tt, with_guild_config (alter (fun r => fold_left (assign_guild now) updates r) g) conn).

(* INSERT INTO guild_config (guild_id, channel_id, log_channel_id,
   support_channel_id) VALUES (?, ?, ?, ?); created_at and updated_at take
   their default, CURRENT_TIMESTAMP. *)
Definition insert_guild_config (g : Z) (c l s : option Z)
    (now : timestamp) (conn : Conn) : exn + (unit * Conn) :=
  match guild_config conn !! g with
  | Some _ => inl IntegrityError
  | None => inr (tt, with_guild_config (insert g (mkGuildConfig c l s now now)) conn)
  end.

(* SELECT reaction_count FROM user_reactions WHERE guild_id = ? AND user_id = ? *)
Definition select_reaction_count (g u : Z) (conn : Conn) : option Z :=
  reaction_count <$> user_reactions conn !! (g, u).

(* INSERT INTO user_reactions (...) VALUES (?, ?, ?, CURRENT_TIMESTAMP,
   CURRENT_TIMESTAMP) ON CONFLICT(guild_id, user_id) DO UPDATE SET
   reaction_count = reaction_count + ?, last_reaction_at = CURRENT_TIMESTAMP,
   updated_at = CURRENT_TIMESTAMP
   The sum is the engine's integer addition: it is the sum in [Z] as long as
   the amount and the result are 64-bit integers. *)
Definition upsert_user_reaction (g u count : Z) (now : timestamp) (conn : Conn)
    : exn + (unit * Conn) :=
  match user_reactions conn !! (g, u) with
  | None =>
      inr (tt, with_user_reactions (insert (g, u) (mkUserReaction count (Some now) now now)) conn)
  | Some r =>
      inr (tt, with_user_reactions
                 (insert (g, u) (mkUserReaction (reaction_count r + count) (Some now)
                                                (ur_created_at r) now)) conn)
  end.

(* INSERT INTO admin_users (user_id) VALUES (?) *)
Definition insert_admin_user (u : Z) (now : timestamp) (conn : Conn) : exn + (unit * Conn) :=
  match admin_users conn !! u with
  | Some _ => inl IntegrityError
  | None => inr (tt, with_admin_users (insert u (mkAdminUser now)) conn)
  end.

(* DELETE FROM admin_users WHERE user_id = ? ; the result is cursor.rowcount *)
Definition delete_admin_user (u : Z) (conn : Conn) : exn + (Z * Conn) :=
  inr (rowcount (admin_users conn !! u), with_admin_users (delete u) conn).

(* INSERT INTO banned_users (user_id, reason, banned_by) VALUES (?, ?, ?) *)
Definition insert_banned_user (u : Z) (why : option string) (by_ : option Z)
    (now : timestamp) (conn : Conn) : exn + (unit * Conn) :=
  match banned_users conn !! u with
  | Some _ => inl IntegrityError
  | None => inr (tt, with_banned_users (insert u (mkBannedUser why by_ now)) conn)
  end.

(* DELETE FROM banned_users WHERE user_id = ? *)
Definition delete_banned_user (u : Z) (conn : Conn) : exn + (Z * Conn) :=
  inr (rowcount (banned_users conn !! u), with_banned_users (delete u) conn).

(* INSERT INTO tickets (ticket_id, user_id, user_name, guild_id, guild_name,
   message, status) VALUES (?, ?, ?, ?, ?, ?, 'open'); created_at takes its
   default, CURRENT_TIMESTAMP, the other columns are NULL. *)
Definition insert_ticket (ticket_id : string) (uid : Z) (uname : string) (gid : Z)
    (gname msg : string) (now : timestamp) (conn : Conn) : exn + (unit * Conn) :=
  match tickets conn !! ticket_id with
  | Some _ => inl IntegrityError
  | None =>
      inr (tt, with_tickets
                 (insert ticket_id
                    (mkTicket uid uname gid gname msg "open" now None None None None None))
                 conn)
  end.

(* SELECT * FROM tickets WHERE ticket_id = ? ; fetchone() *)
Definition select_ticket (ticket_id : string) (conn : Conn) : option Ticket :=
  tickets conn !! ticket_id.

(* A keyword argument of update_ticket: a column of tickets other than the
   key, with a value the column admits. *)
Inductive ticket_assignment :=
| set_user_id (v : Z)
| set_user_name (v : string)
| set_guild_id (v : Z)
| set_guild_name (v : string)
| set_message (v : string)
| set_status (v : string)
| set_created_at (v : timestamp)
| set_admin_response (v : option string)
| set_admin_responder (v : option string)
| set_response_timestamp (v : option timestamp)
| set_closed_by (v : option string)
| set_closed_timestamp (v : option timestamp).

Definition assign_ticket (t : Ticket) (a : ticket_assignment) : Ticket :=
  match a with
  | set_user_id v =>
      mkTicket v (user_name t) (guild_id t) (guild_name t) (message t) (status t) (created_at t)
        (admin_response t) (admin_responder t) (response_timestamp t) (closed_by t) (closed_timestamp t)
  | set_user_name v =>
      mkTicket (user_id t) v (guild_id t) (guild_name t) (message t) (status t) (created_at t)
        (admin_response t) (admin_responder t) (response_timestamp t) (closed_by t) (closed_timestamp t)
  | set_guild_id v =>
      mkTicket (user_id t) (user_name t) v (guild_name t) (message t) (status t) (created_at t)
        (admin_response t) (admin_responder t) (response_timestamp t) (closed_by t) (closed_timestamp t)
  | set_guild_name v =>
      mkTicket (user_id t) (user_name t) (guild_id t) v (message t) (status t) (created_at t)
        (admin_response t) (admin_responder t) (response_timestamp t) (closed_by t) (closed_timestamp t)
  | set_message v =>
      mkTicket (user_id t) (user_name t) (guild_id t) (guild_name t) v (status t) (created_at t)
        (admin_response t) (admin_responder t) (response_timestamp t) (closed_by t) (closed_timestamp t)
  | set_status v =>
      mkTicket (user_id t) (user_name t) (guild_id t) (guild_name t) (message t) v (created_at t)
        (admin_response t) (admin_responder t) (response_timestamp t) (closed_by t) (closed_timestamp t)
  | set_created_at v =>
      mkTicket (user_id t) (user_name t) (guild_id t) (guild_name t) (message t) (status t) v
        (admin_response t) (admin_responder t) (response_timestamp t) (closed_by t) (closed_timestamp t)
  | set_admin_response v =>
      mkTicket (user_id t) (user_name t) (guild_id t) (guild_name t) (message t) (status t) (created_at t)
        v (admin_responder t) (response_timestamp t) (closed_by t) (closed_timestamp t)
  | set_admin_responder v =>
      mkTicket (user_id t) (user_name t) (guild_id t) (guild_name t) (message t) (status t) (created_at t)
        (admin_response t) v (response_timestamp t) (closed_by t) (closed_timestamp t)
  | set_response_timestamp v =>
      mkTicket (user_id t) (user_name t) (guild_id t) (guild_name t) (message t) (status t) (created_at t)
        (admin_response t) (admin_responder t) v (closed_by t) (closed_timestamp t)
  | set_closed_by v =>
      mkTicket (user_id t) (user_name t) (guild_id t) (guild_name t) (message t) (status t) (created_at t)
        (admin_response t) (admin_responder t) (response_timestamp t) v (closed_timestamp t)
  | set_closed_timestamp v =>
      mkTicket (user_id t) (user_name t) (guild_id t) (guild_name t) (message t) (status t) (created_at t)
        (admin_response t) (admin_responder t) (response_timestamp t) (closed_by t) v
  end.

(* the key of the keyword argument, which names the column in the clause
   f"{key} = ?" *)
Definition assigned_column (a : ticket_assignment) : string :=
  match a with
  | set_user_id _ => "user_id"
  | set_user_name _ => "user_name"
  | set_guild_id _ => "guild_id"
  | set_guild_name _ => "guild_name"
  | set_message _ => "message"
  | set_status _ => "status"
  | set_created_at _ => "created_at"
  | set_admin_response _ => "admin_response"
  | set_admin_responder _ => "admin_responder"
  | set_response_timestamp _ => "response_timestamp"
  | set_closed_by _ => "closed_by"
  | set_closed_timestamp _ => "closed_timestamp"
  end.

(* UPDATE tickets SET <set_clauses> WHERE ticket_id = ? ; cursor.rowcount *)
Definition update_tickets (updates : list ticket_assignment) (ticket_id : string)
    (conn : Conn) : exn + (Z * Conn) :=
  inr (rowcount (tickets conn !! ticket_id),
       with_tickets (alter (fun t => fold_left assign_ticket updates t) ticket_id) conn).

(* DELETE FROM tickets WHERE ticket_id = ? ; cursor.rowcount *)
Definition delete_tickets (ticket_id : string) (conn : Conn) : exn + (Z * Conn) :=
  inr (rowcount (tickets conn !! ticket_id), with_tickets (delete ticket_id) conn).

(* ORDER BY created_at DESC *)
Definition created_desc (a b : string * Ticket) : Prop := created_at (snd b) <= created_at (snd a).
Global Instance created_desc_dec a b : Decision (created_desc a b).
Proof. unfold created_desc. apply Z_le_dec. Defined.

(* SELECT * FROM tickets [WHERE status = ?] ORDER BY created_at DESC, as
   the dict {row['ticket_id']: dict(row)} built from fetchall(), in order. *)
Definition select_tickets (status_filter : option string) (conn : Conn) : list (string * Ticket) :=
  let rows := merge_sort created_desc (map_to_list (tickets conn)) in
  if truthy_str status_filter then
    List.filter (fun r => bool_decide (Some (status (snd r)) = status_filter)) rows
  else rows.

(** *** The operations *)

Definition get_guild_config (guild_id : Z) : Op (option GuildConfig) :=
  get_db_connection (fun conn =>
    let row := select_guild_config guild_id conn in
    match row with
    | Some r => ret (Some r, conn)
    | None => ret (None, conn)
    end).

(* The SET clauses and parameters set_guild_config collects in its three
   [if ... is not None:]. *)
Definition guild_updates (channel_id log_channel_id support_channel_id : option Z)
    : list guild_assignment :=
  (match channel_id with Some v => [SetChannelId v] | None => [] end) ++
  (match log_channel_id with Some v => [SetLogChannelId v] | None => [] end) ++
  (match support_channel_id with Some v => [SetSupportChannelId v] | None => [] end).

(* set_guild_config from [if existing:] on, once [existing] is known. *)
Definition set_guild_config_write (guild_id : Z)
    (channel_id log_channel_id support_channel_id : option Z)
    (existing : option GuildConfig) (conn : Conn) : Op (unit * Conn) :=
  match existing with
  | Some _ =>
      let updates := guild_updates channel_id log_channel_id support_channel_id in
      match updates with
      | _ :: _ =>
          do now <- current_timestamp;
          execute (update_guild_config (updates ++ [SetUpdatedAtNow]) guild_id now conn)
      | [] => ret (tt, conn)
      end
  | None =>
      do now <- current_timestamp;
      execute (insert_guild_config guild_id channel_id log_channel_id support_channel_id
                                   now conn)
  end.

Definition set_guild_config (guild_id : Z)
    (channel_id log_channel_id support_channel_id : option Z) : Op unit :=
  get_db_connection (fun conn =>
    (* existing = get_guild_config(guild_id), inside the guard *)
    do existing <- get_guild_config guild_id;
    set_guild_config_write guild_id channel_id log_channel_id support_channel_id existing conn).

Definition get_user_reactions (guild_id user_id : Z) : Op Z :=
  get_db_connection (fun conn =>
    match select_reaction_count guild_id user_id conn with
    | Some n => ret (n, conn)
    | None => ret (0, conn)
    end).

Definition increment_user_reactions (guild_id user_id count : Z) : Op unit :=
  get_db_connection (fun conn =>
    do now <- current_timestamp;
    execute (upsert_user_reaction guild_id user_id count now conn)).

Definition is_admin_user (user_id : Z) : Op bool :=
  get_db_connection (fun conn =>
    ret (bool_decide (is_Some (admin_users conn !! user_id)), conn)).

Definition add_admin_user (user_id : Z) : Op bool :=
  get_db_connection (fun conn =>
    try_except_IntegrityError
      (do now <- current_timestamp;
       do r <- execute (insert_admin_user user_id now conn);
       ret (true, snd r))
      (ret (false, conn))).

Definition remove_admin_user (user_id : Z) : Op bool :=
  get_db_connection (fun conn =>
    do r <- execute (delete_admin_user user_id conn);
    ret (0 <? fst r, snd r)).

Definition is_banned_user (user_id : Z) : Op bool :=
  get_db_connection (fun conn =>
    ret (bool_decide (is_Some (banned_users conn !! user_id)), conn)).

Definition ban_user (user_id : Z) (reason : option string) (banned_by : option Z) : Op bool :=
  get_db_connection (fun conn =>
    try_except_IntegrityError
      (do now <- current_timestamp;
       do r <- execute (insert_banned_user user_id reason banned_by now conn);
       ret (true, snd r))
      (ret (false, conn))).

Definition unban_user (user_id : Z) : Op bool :=
  get_db_connection (fun conn =>
    do r <- execute (delete_banned_user user_id conn);
    ret (0 <? fst r, snd r)).

Definition create_ticket (ticket_id : string) (user_id : Z) (user_name : string)
    (guild_id : Z) (guild_name message : string) : Op string :=
  get_db_connection (fun conn =>
    do now <- current_timestamp;
    do r <- execute (insert_ticket ticket_id user_id user_name guild_id guild_name message
                                   now conn);
    ret (ticket_id, snd r)).

Definition get_ticket (ticket_id : string) : Op (option Ticket) :=
  get_db_connection (fun conn =>
    match select_ticket ticket_id conn with
    | Some t => ret (Some t, conn)
    | None => ret (None, conn)
    end).

(* update_ticket(ticket_id, **updates); the keyword arguments in order. *)
Definition update_ticket (ticket_id : string) (updates : list ticket_assignment) : Op bool :=
  match updates with
  | [] => ret false
  | _ :: _ =>
      get_db_connection (fun conn =>
        do r <- execute (update_tickets updates ticket_id conn);
        ret (0 <? fst r, snd r))
  end.

Definition close_ticket (ticket_id : string) (closed_by : string)
    (admin_response admin_responder : option string) : Op bool :=
  do closed_at <- datetime_now;
  let updates := [set_status ("closed_by_" +:+ closed_by);
                  set_closed_timestamp (Some closed_at);
                  set_closed_by (Some closed_by)] in
  let updates := if truthy_str admin_response
                 then updates ++ [set_admin_response admin_response] else updates in
  if truthy_str admin_responder then
    do responded_at <- datetime_now;
    update_ticket ticket_id
      (updates ++ [set_admin_responder admin_responder;
                   set_response_timestamp (Some responded_at)])
  else update_ticket ticket_id updates.

Definition delete_ticket (ticket_id : string) : Op bool :=
  get_db_connection (fun conn =>
    do r <- execute (delete_tickets ticket_id conn);
    ret (0 <? fst r, snd r)).

Definition get_all_tickets (status_filter : option string) : Op (list (string * Ticket)) :=
  get_db_connection (fun conn => ret (select_tickets status_filter conn, conn)).

Definition get_open_tickets : Op (list (string * Ticket)) :=
  get_all_tickets (Some "open"%string).

(** *** The listing operations *)

(* The rows of a table keyed by an INTEGER PRIMARY KEY, as a scan without
   ORDER BY yields them: in the order of the key. *)
Definition key_asc {V} (a b : Z * V) : Prop := fst a <= fst b.
Global Instance key_asc_dec {V} (a b : Z * V) : Decision (key_asc a b).
Proof. unfold key_asc. apply Z_le_dec. Defined.

Definition scan {V} (table : gmap Z V) : list (Z * V) :=
  merge_sort key_asc (map_to_list table).

(* SELECT * FROM guild_config ; [dict(row) for row in cursor.fetchall()] *)
Definition get_all_guild_configs : Op (list (Z * GuildConfig)) :=
  get_db_connection (fun conn => ret (scan (guild_config conn), conn)).

(* SELECT user_id FROM admin_users ; [row['user_id'] for row in ...] *)
Definition get_admin_users : Op (list Z) :=
  get_db_connection (fun conn => ret ((scan (admin_users conn)).*1, conn)).

(* SELECT * FROM banned_users ; [dict(row) for row in cursor.fetchall()] *)
Definition get_banned_users : Op (list (Z * BannedUser)) :=
  get_db_connection (fun conn => ret (scan (banned_users conn), conn)).

(* ORDER BY reaction_count DESC, on rows (user_id, reaction_count) *)
Definition count_desc (a b : Z * Z) : Prop := snd b <= snd a.
Global Instance count_desc_dec a b : Decision (count_desc a b).
Proof. unfold count_desc. apply Z_le_dec. Defined.

(* SELECT user_id, reaction_count FROM user_reactions WHERE guild_id = ?
   ORDER BY reaction_count DESC *)
Definition select_guild_reactions (guild_id : Z) (conn : Conn) : list (Z * Z) :=
  merge_sort count_desc
    (omap (fun row : Z * Z * UserReaction =>
             if decide (fst (fst row) = guild_id)
             then Some (snd (fst row), reaction_count (snd row)) else None)
          (map_to_list (user_reactions conn))).

(* {row['user_id']: row['reaction_count'] for row in cursor.fetchall()} *)
Definition get_guild_reactions (guild_id : Z) : Op (list (Z * Z)) :=
  get_db_connection (fun conn => ret (select_guild_reactions guild_id conn, conn)).

(* SELECT * FROM tickets WHERE <column> = ? [AND status = ?]
   ORDER BY created_at DESC, as the dict keyed by ticket_id, in order. *)
Definition select_tickets_where (matches : Ticket → bool) (status_filter : option string)
    (conn : Conn) : list (string * Ticket) :=
  let wanted (row : string * Ticket) :=
    if truthy_str status_filter
    then matches (snd row) && bool_decide (Some (status (snd row)) = status_filter)
    else matches (snd row) in
  merge_sort created_desc (List.filter wanted (map_to_list (tickets conn))).

(* WHERE user_id = ? and WHERE guild_id = ? *)
Definition of_user (uid : Z) (t : Ticket) : bool := bool_decide (user_id t = uid).
Definition of_guild (gid : Z) (t : Ticket) : bool := bool_decide (guild_id t = gid).

Definition get_user_tickets (user_id : Z) (status_filter : option string)
    : Op (list (string * Ticket)) :=
  get_db_connection (fun conn =>
    ret (select_tickets_where (of_user user_id) status_filter conn, conn)).

Definition get_guild_tickets (guild_id : Z) (status_filter : option string)
    : Op (list (string * Ticket)) :=
  get_db_connection (fun conn =>
    ret (select_tickets_where (of_guild guild_id) status_filter conn, conn)).

(* ORDER BY guild_id, reaction_count DESC, on rows
   (guild_id, user_id, reaction_count) *)
Definition guild_then_count (a b : Z * Z * Z) : Prop :=
  fst (fst a) < fst (fst b) ∨ (fst (fst a) = fst (fst b) ∧ snd b <= snd a).
Global Instance guild_then_count_dec a b : Decision (guild_then_count a b).
Proof. unfold guild_then_count. apply _. Defined.

(* SELECT guild_id, user_id, reaction_count FROM user_reactions
   ORDER BY guild_id, reaction_count DESC *)
Definition select_all_reactions (conn : Conn) : list (Z * Z * Z) :=
  merge_sort guild_then_count
    (List.map (fun row : Z * Z * UserReaction =>
                 (fst (fst row), snd (fst row), reaction_count (snd row)))
              (map_to_list (user_reactions conn))).

(* the loop of get_all_reactions, [reactions] being the dict built so far *)
Fixpoint group_reactions (rows : list (Z * Z * Z))
    (reactions : list (string * list (string * Z))) : list (string * list (string * Z)) :=
  match rows with
  | [] => reactions
  | (g, u, n) :: rest =>
      let guild_id := pretty g in            (* str(row['guild_id']) *)
      let user_id := pretty u in             (* str(row['user_id']) *)
      let reactions :=
        match dict_get guild_id reactions with
        | None => dict_set guild_id [] reactions
        | Some _ => reactions
        end in
      (* reactions[guild_id][user_id] = row['reaction_count'] *)
      group_reactions rest
        (dict_set guild_id (dict_set user_id n (default [] (dict_get guild_id reactions)))
                  reactions)
  end.

Definition get_all_reactions : Op (list (string * list (string * Z))) :=
  get_db_connection (fun conn => ret (group_reactions (select_all_reactions conn) [], conn)).

End Database.

(** ** uuid.uuid4() and str(), from the Python library *)

Definition hex_digit (d : Z) : ascii :=
  match d with
  | 0 => "0" | 1 => "1" | 2 => "2" | 3 => "3" | 4 => "4" | 5 => "5" | 6 => "6" | 7 => "7"
  | 8 => "8" | 9 => "9" | 10 => "a" | 11 => "b" | 12 => "c" | 13 => "d" | 14 => "e" | _ => "f"
  end%char.

(* the last [width] hexadecimal digits of n, most significant first, before acc *)
Fixpoint hex_onto (width : nat) (n : Z) (acc : string) : string :=
  match width with
  | O => acc
  | S k => hex_onto k (n / 16) (String (hex_digit (n mod 16)) acc)
  end.

(* '%032x' % n *)
Definition hex32 (n : Z) : string := hex_onto 32 n EmptyString.

(* UUID(bytes=os.urandom(16), version=4).int: the variant and version bits
   are forced, the other 122 bits are the random ones. *)
Definition uuid4_int (random : Z) : Z :=
  let n := random mod 2 ^ 128 in
  let n := Z.land n (Z.lnot (Z.shiftl 0xc000 48)) in
  let n := Z.lor n (Z.shiftl 0x8000 48) in
  let n := Z.land n (Z.lnot (Z.shiftl 0xf000 64)) in
  Z.lor n (Z.shiftl 4 76).

Definition uuid4 : Op Z := fun w => Ret (uuid4_int (urandom w (draws w))) (draw w).

(* str(u): 8-4-4-4-12 hexadecimal digits *)
Definition str_uuid (u : Z) : string :=
  let hex := hex32 u in
  substring 0 8 hex +:+ "-" +:+ substring 8 4 hex +:+ "-" +:+ substring 12 4 hex
    +:+ "-" +:+ substring 16 4 hex +:+ "-" +:+ substring 20 12 hex.

(* the id tickets.create_ticket computes from the next 16 random bytes:
   str(uuid.uuid4())[:8] *)
Definition next_ticket_id (w : World) : string :=
  substring 0 8 (str_uuid (uuid4_int (urandom w (draws w)))).

(* d days in microseconds: the value of timedelta(days=d) when there is
   one, see [timedelta] below for the range *)
Definition timedelta_days (d : Z) : Z := d * 86400000000.

(** ** datetime and timedelta arithmetic, from the Python library

    For the range checks a timestamp counts the microseconds since
    0001-01-01T00:00:00, which is [datetime.min]; [datetime.max] is the last
    microsecond of 9999-12-31, day 3652059 of the calendar. *)
Definition datetime_min : timestamp := 0.
Definition datetime_max : timestamp := 3652059 * 86400000000 - 1.

Definition OverflowError : exn := PyException "OverflowError".

(* timedelta(days=d): the magnitude is at most 999999999 days *)
Definition timedelta (d : Z) : Op Z :=
  if decide (-999999999 <= d <= 999999999) then ret (timedelta_days d)
  else raise OverflowError.

(* t - delta on a datetime: the result is a datetime, or the subtraction
   raises *)
Definition datetime_sub (t : timestamp) (delta : Z) : Op timestamp :=
  if decide (datetime_min <= t - delta <= datetime_max) then ret (t - delta)
  else raise OverflowError.

(** ** tickets.py *)

Module Tickets.

Definition db_create_ticket := Database.create_ticket.
Definition db_get_ticket := Database.get_ticket.
Definition db_update_ticket := Database.update_ticket.
Definition db_close_ticket := Database.close_ticket.
Definition db_delete_ticket := Database.delete_ticket.
Definition db_get_all_tickets := Database.get_all_tickets.

Definition create_ticket (user_id : Z) (user_name : string) (guild_id : Z)
    (guild_name message : string) : Op string :=
  do u <- uuid4;
  let ticket_id := substring 0 8 (str_uuid u) in
  do _r <- db_create_ticket ticket_id user_id user_name guild_id guild_name message;
  ret ticket_id.

Definition get_ticket (ticket_id : string) : Op (option Ticket) := db_get_ticket ticket_id.

Definition update_ticket (ticket_id : string) (updates : list Database.ticket_assignment) : Op bool :=
  db_update_ticket ticket_id updates.

Definition close_ticket (ticket_id : string) (closed_by : string)
    (admin_response admin_responder : option string) : Op bool :=
  db_close_ticket ticket_id closed_by admin_response admin_responder.

Definition delete_ticket (ticket_id : string) : Op bool := db_delete_ticket ticket_id.

(* the first loop of cleanup_old_tickets *)
Fixpoint collect_old_closed (cutoff_date : timestamp) (items : list (string * Ticket)) : list string :=
  match items with
  | [] => []
  | (ticket_id, ticket) :: rest =>
      (* if ticket["status"].startswith("closed"): *)
      if String.prefix "closed" (status ticket) then
        (* ticket_date = datetime.fromisoformat(ticket["created_at"]) *)
        let ticket_date := created_at ticket in
        if ticket_date <? cutoff_date
        then ticket_id :: collect_old_closed cutoff_date rest
        else collect_old_closed cutoff_date rest
      else collect_old_closed cutoff_date rest
  end.

(* the second loop of cleanup_old_tickets *)
Fixpoint delete_each (tickets_to_delete : list string) (count : Z) : Op Z :=
  match tickets_to_delete with
  | [] => ret count
  | ticket_id :: rest =>
      do deleted <- db_delete_ticket ticket_id;
      delete_each rest (if deleted then count + 1 else count)
  end.

Definition cleanup_old_tickets (days_old : Z) : Op Z :=
  do tickets <- db_get_all_tickets None;
  (* cutoff_date = datetime.now() - timedelta(days=days_old) *)
  do now <- datetime_now;
  do delta <- timedelta days_old;
  do cutoff_date <- datetime_sub now delta;
  let tickets_to_delete := collect_old_closed cutoff_date tickets in
  delete_each tickets_to_delete 0.

Definition db_get_user_tickets := Database.get_user_tickets.
Definition db_get_open_tickets := Database.get_open_tickets.


(* the body of save_tickets is [pass] *)
Definition save_tickets (tickets_data : list (string * Ticket)) : Op unit := ret tt.

Definition get_user_tickets (user_id : Z) (status_filter : option string)
    : Op (list (string * Ticket)) :=
  db_get_user_tickets user_id status_filter.

Definition get_open_tickets : Op (list (string * Ticket)) := db_get_open_tickets.

End Tickets.

(** ** auth.py *)

Module Auth.

Definition db_is_admin_user := Database.is_admin_user.
Definition db_add_admin_user := Database.add_admin_user.
Definition db_remove_admin_user := Database.remove_admin_user.
Definition db_get_admin_users := Database.get_admin_users.

(* The dict of the old JSON format has one key of interest, "admin_users":
   it is modelled by the value under that key, [None] when the key is
   missing. *)
Definition load_authorized_users : Op (option (list Z)) :=
  do admins <- db_get_admin_users;
  ret (Some admins).

Definition save_authorized_users (auth_data : option (list Z)) : Op unit :=
  match auth_data with
  | Some admin_users =>
      do current <- db_get_admin_users;
      let current_admins : gset Z := list_to_set current in
      let new_admins : gset Z := list_to_set admin_users in
      (* Add new admins *)
      do _a <- for_each (elements (new_admins ∖ current_admins)) db_add_admin_user;
      (* Remove old admins *)
      for_each (elements (current_admins ∖ new_admins)) db_remove_admin_user
  | None => ret tt
  end.

Definition is_admin_user (user_id : Z) : Op bool := db_is_admin_user user_id.
Definition add_admin_user (user_id : Z) : Op bool := db_add_admin_user user_id.
Definition remove_admin_user (user_id : Z) : Op bool := db_remove_admin_user user_id.
Definition get_admin_users : Op (list Z) := db_get_admin_users.

End Auth.

(** ** config.py, the reaction helpers *)

Module Config.

Definition load_reactions : Op (list (string * list (string * Z))) :=
  Database.get_all_reactions.

Section SaveReactions.
(* Python's int() on a str: the number, or the exception it raises. *)
Variable int : string → exn + Z.

Definition call_int (s : string) : Op Z :=
  match int s with
  | inl e => raise e
  | inr n => ret n
  end.

(* for user_id, count in users.items(): ... *)
Fixpoint save_guild_reactions (guild_id : string) (users : list (string * Z)) : Op unit :=
  match users with
  | [] => ret tt
  | (user_id, count) :: rest =>
      do g <- call_int guild_id;
      do u <- call_int user_id;
      do current_count <- Database.get_user_reactions g u;
      let diff := count - current_count in
      do _r <- (if decide (diff ≠ 0) then
                  do g' <- call_int guild_id;
                  do u' <- call_int user_id;
                  Database.increment_user_reactions g' u' diff
                else ret tt);
      save_guild_reactions guild_id rest
  end.

(* for guild_id, users in data.items(): ... *)
Fixpoint save_reactions (data : list (string * list (string * Z))) : Op unit :=
  match data with
  | [] => ret tt
  | (guild_id, users) :: rest =>
      do _r <- save_guild_reactions guild_id users;
      save_reactions rest
  end.
End SaveReactions.

End Config.

(** ** Auxiliary definitions for the statements and the examples *)

(* A process at rest: lock free, no connection, nothing logged. *)
Definition idle (d : DB) : World :=
  mkWorld d false 0 [] 0 (fun n => 1000000 * Z.of_nat n) (fun n => 1000000 * Z.of_nat n)
          0 (fun n => 0x0123456789abcdef0123456789abcdef + Z.of_nat n).

(* the test cleanup_old_tickets applies to a ticket *)
Definition old_and_closed (cutoff_date : timestamp) (t : Ticket) : bool :=
  if String.prefix "closed" (status t) then created_at t <? cutoff_date else false.

(* the count get_user_reactions reports for a pair *)
Definition stored_count (g u : Z) (d : DB) : Z :=
  default 0 (Database.select_reaction_count g u d).

(* A 64-bit integer, the range of an INTEGER column and of the integers the
   engine adds exactly. *)
Definition int64 (n : Z) : Prop := - 2 ^ 63 <= n < 2 ^ 63.

(* Starting from [count], every amount of [deltas] and every count reached
   on the way by adding them in order is a 64-bit integer. *)
Fixpoint counts_fit (count : Z) (deltas : list Z) : Prop :=
  match deltas with
  | [] => True
  | d :: rest => int64 d ∧ int64 (count + d) ∧ counts_fit (count + d) rest
  end.

(* A store holding one open ticket, and one whose ticket has the id the
   idle process generates next. *)
Definition a_ticket : Ticket :=
  mkTicket 7 "ann" 8 "guild" "help" "open" 0 None None None None None.
Definition one_ticket_db : DB := with_tickets (insert "abcd1234"%string a_ticket) empty_db.

(* A store with a ticket closed and created 31 days ago, one closed and
   created 29 days ago, and one open and created 400 days ago, in a process
   whose clock reads day 500. *)
Definition day : Z := 86400000000.
Definition three_tickets_db : DB :=
  with_tickets
    (fun _ => <[ "closed31" := mkTicket 7 "ann" 8 "guild" "help" "closed_by_admin" (469 * day)
                                 (Some "done") (Some "root") (Some (470 * day))
                                 (Some "admin") (Some (470 * day)) ]>
              (<[ "closed29" := mkTicket 7 "ann" 8 "guild" "help" "closed_by_admin" (471 * day)
                                  (Some "done") (Some "root") (Some (472 * day))
                                  (Some "admin") (Some (472 * day)) ]>
               (<[ "open400" := mkTicket 7 "ann" 8 "guild" "help" "open" (100 * day)
                                  None None None None None ]> ∅)))%string
    empty_db.
Definition day500 : World :=
  mkWorld three_tickets_db false 0 [] 0 (fun _ => 500 * day) (fun _ => 500 * day) 0 (fun _ => 0).

(* A process at rest on day 500, over any store. *)
Definition on_day500 (d : DB) : World :=
  mkWorld d false 0 [] 0 (fun _ => 500 * day) (fun _ => 500 * day) 0 (fun _ => 0).

(* A store where guild 1 is configured. *)
Definition one_guild_db : DB :=
  with_guild_config (insert 1 (mkGuildConfig (Some 10) None None 0 0)) empty_db.

(* An operation started in [w] has come to its end in [o]: it did not
   block, the lock is free again and no connection is left open. *)
Definition ended_clean {A} (w : World) (o : outcome A) : Prop :=
  (∀ w', o ≠ Blocked w') ∧
  db_lock (world_of o) = false ∧
  open_connections (world_of o) = open_connections w.

(* A body that leaves the lock and the connections alone and does not block. *)
Definition quiet {A} (fn : Conn → Op (A * Conn)) : Prop :=
  ∀ conn w1, (∀ w', fn conn w1 ≠ Blocked w') ∧
             db_lock (world_of (fn conn w1)) = db_lock w1 ∧
             open_connections (world_of (fn conn w1)) = open_connections w1.






(* c in "0123456789abcdef" *)
Definition is_lower_hex (c : ascii) : bool :=
  existsb (Ascii.eqb c)
    ["0"; "1"; "2"; "3"; "4"; "5"; "6"; "7"; "8"; "9"; "a"; "b"; "c"; "d"; "e"; "f"]%char.

Fixpoint all_lower_hex (s : string) : bool :=
  match s with
  | EmptyString => true
  | String c rest => is_lower_hex c && all_lower_hex rest
  end.

(** * Properties *)

(* Unfold one guarded operation in a state where the lock is free. *)
Ltac enter_guard Hfree :=
  unfold get_db_connection; rewrite Hfree; cbv zeta;
  unfold bind, current_timestamp, execute, try_except_IntegrityError, ret, raise;
  cbn [db_file enter connect log set_db_lock set_open_connections tick].

(* A body of statements leaves the trace as it found it. *)
Ltac quiet_body :=
  intros ? ?;
  unfold bind, current_timestamp, execute, try_except_IntegrityError, ret, raise,
    Database.select_guild_config, Database.select_reaction_count,
    Database.upsert_user_reaction, Database.insert_admin_user, Database.delete_admin_user,
    Database.insert_banned_user, Database.delete_banned_user, Database.insert_ticket,
    Database.select_ticket, Database.update_tickets, Database.delete_tickets;
  repeat case_match; simplify_eq; reflexivity.

(** ** The connection guard *)

Section Guard.
Context {A : Type}.
Variable fn : Conn → Op (A * Conn).
Variable w : World.
Hypothesis lock_free : db_lock w = false.

Lemma guard_returns a conn' w2 :
  fn (db_file w) (enter w) = Ret (a, conn') w2 →
  get_db_connection fn w = Ret a (release (close (commit conn' w2))).
Proof using lock_free.
  intros Hfn. unfold get_db_connection. rewrite lock_free. cbv zeta.
  change (db_file (enter w)) with (db_file w). now rewrite Hfn.
Qed.

Lemma guard_raises e w2 :
  fn (db_file w) (enter w) = Raise e w2 →
  get_db_connection fn w =
    Raise e (release (close (if is_Exception e then rollback w2 else w2))).
Proof using lock_free.
  intros Hfn. unfold get_db_connection. rewrite lock_free. cbv zeta.
  change (db_file (enter w)) with (db_file w). now rewrite Hfn.
Qed.

Lemma guard_blocks w2 :
  fn (db_file w) (enter w) = Blocked w2 →
  get_db_connection fn w = Blocked w2.
Proof using lock_free.
  intros Hfn. unfold get_db_connection. rewrite lock_free. cbv zeta.
  change (db_file (enter w)) with (db_file w). now rewrite Hfn.
Qed.
End Guard.

Lemma guard_held {A} (fn : Conn → Op (A * Conn)) w :
  db_lock w = true → get_db_connection fn w = Blocked (log EvAcquireWhileHeld w).
Proof. intros H. unfold get_db_connection. now rewrite H. Qed.

(** C3.  The connection guard, for every function [fn] it is given and every
    state in which the lock is free: [fn] is run with the lock held on a
    connection that sees the stored state; when [fn] returns, what it left
    on the connection is committed and its value returned; when [fn] raises,
    nothing of the transaction reaches the stored state and the same error
    is raised again, after an explicit rollback when the error is an
    [Exception]; and either way the connection is closed and then the lock
    released, as the last two things the guard does. *)
Theorem guard_commits_or_rolls_back {A} (fn : Conn → Op (A * Conn)) (w : World) :
  db_lock w = false →
  db_lock (enter w) = true ∧
  (∀ a conn' w2, fn (db_file w) (enter w) = Ret (a, conn') w2 →
     ∃ w', get_db_connection fn w = Ret a w' ∧
           db_file w' = conn' ∧
           db_lock w' = false ∧
           open_connections w' = pred (open_connections w2) ∧
           trace w' = trace w2 ++ [EvCommit; EvClose; EvRelease]) ∧
  (∀ e w2, fn (db_file w) (enter w) = Raise e w2 →
     ∃ w', get_db_connection fn w = Raise e w' ∧
           db_file w' = db_file w2 ∧
           (db_file w2 = db_file w → db_file w' = db_file w) ∧
           db_lock w' = false ∧
           open_connections w' = pred (open_connections w2) ∧
           trace w' = trace w2 ++ (if is_Exception e then [EvRollback] else [])
                               ++ [EvClose; EvRelease]).
Proof.
  intros Hfree. split; [reflexivity|]. split.
  - intros a conn' w2 Hfn. rewrite (guard_returns fn w Hfree a conn' w2 Hfn).
    eexists. split; [reflexivity|].
    simpl. repeat split. now rewrite <- !app_assoc.
  - intros e w2 Hfn. rewrite (guard_raises fn w Hfree e w2 Hfn).
    eexists. split; [reflexivity|].
    destruct (is_Exception e); simpl; repeat split; auto;
      now rewrite <- ?app_assoc.
Qed.

Lemma guard_commits_or_rolls_back_witness :
  db_lock (idle empty_db) = false ∧
  (∃ w', get_db_connection (fun conn => ret (true, conn)) (idle empty_db) = Ret true w' ∧
         db_file w' = empty_db ∧ db_lock w' = false) ∧
  (∃ w', get_db_connection (A := bool) (fun conn => raise IntegrityError) (idle empty_db)
           = Raise IntegrityError w' ∧
         db_file w' = empty_db ∧ db_lock w' = false).
Proof.
  split; [reflexivity|]. split.
  - destruct (guard_commits_or_rolls_back (fun conn => ret (true, conn)) (idle empty_db) eq_refl)
      as (_ & Hret & _).
    destruct (Hret true empty_db _ eq_refl) as (w' & Hrun & Hdb & Hlock & _).
    exists w'. auto.
  - destruct (guard_commits_or_rolls_back (A := bool) (fun conn => raise IntegrityError)
                (idle empty_db) eq_refl) as (_ & _ & Hraise).
    destruct (Hraise IntegrityError _ eq_refl) as (w' & Hrun & Hdb & _ & Hlock & _).
    exists w'. auto.
Defined.

(** ** Running operations *)

Lemma bind_ret {A B} (m : Op A) (k : A → Op B) w a w' :
  m w = Ret a w' → (do x <- m; k x) w = k a w'.
Proof. intros H. unfold bind. now rewrite H. Qed.

Lemma bind_raise {A B} (m : Op A) (k : A → Op B) w e w' :
  m w = Raise e w' → (do x <- m; k x) w = Raise e w'.
Proof. intros H. unfold bind. now rewrite H. Qed.

Lemma bind_blocked {A B} (m : Op A) (k : A → Op B) w w' :
  m w = Blocked w' → (do x <- m; k x) w = Blocked w'.
Proof. intros H. unfold bind. now rewrite H. Qed.

(** ** Reaction counters *)

Section Reactions.
Variables g u : Z.
Variable w : World.
Hypothesis lock_free : db_lock w = false.

Lemma get_user_reactions_spec :
  ∃ w', Database.get_user_reactions g u w = Ret (stored_count g u (db_file w)) w' ∧
        db_file w' = db_file w ∧ db_lock w' = false.
Proof using lock_free.
  unfold Database.get_user_reactions, stored_count. enter_guard lock_free.
  destruct (Database.select_reaction_count g u (db_file w)); simpl; eauto.
Qed.

Lemma increment_user_reactions_spec delta :
  ∃ w', Database.increment_user_reactions g u delta w = Ret tt w' ∧
        db_lock w' = false ∧
        stored_count g u (db_file w') = stored_count g u (db_file w) + delta ∧
        (∀ k, k ≠ (g, u) →
           user_reactions (db_file w') !! k = user_reactions (db_file w) !! k).
Proof using lock_free.
  unfold Database.increment_user_reactions, stored_count,
    Database.select_reaction_count, Database.upsert_user_reaction.
  enter_guard lock_free.
  destruct (user_reactions (db_file w) !! (g, u)) as [r|] eqn:Hrow; simpl;
    eexists; (split; [reflexivity|]); simpl; rewrite lookup_insert_eq; simpl;
    repeat split; auto; intros k Hk; now rewrite lookup_insert_ne.
Qed.
End Reactions.




(** ** Inserts under a key *)

Section Inserts.
Variable w : World.
Hypothesis lock_free : db_lock w = false.

Lemma add_admin_user_spec u :
  ∃ w', Database.add_admin_user u w
          = Ret (bool_decide (admin_users (db_file w) !! u = None)) w' ∧
        db_lock w' = false ∧
        db_file w' = match admin_users (db_file w) !! u with
                     | Some _ => db_file w
                     | None => with_admin_users
                                 (insert u (mkAdminUser (utc_clock w (ticks w)))) (db_file w)
                     end.
Proof using lock_free.
  unfold Database.add_admin_user, Database.insert_admin_user. enter_guard lock_free.
  destruct (admin_users (db_file w) !! u); simpl; eauto.
Qed.

Lemma ban_user_spec u why by_ :
  ∃ w', Database.ban_user u why by_ w
          = Ret (bool_decide (banned_users (db_file w) !! u = None)) w' ∧
        db_lock w' = false ∧
        db_file w' = match banned_users (db_file w) !! u with
                     | Some _ => db_file w
                     | None => with_banned_users
                                 (insert u (mkBannedUser why by_ (utc_clock w (ticks w))))
                                 (db_file w)
                     end.
Proof using lock_free.
  unfold Database.ban_user, Database.insert_banned_user. enter_guard lock_free.
  destruct (banned_users (db_file w) !! u); simpl; eauto.
Qed.


End Inserts.




(** ** Tickets *)

Lemma alter_absent {V} (f : V → V) (m : gmap string V) i :
  m !! i = None → alter f i m = m.
Proof.
  intros Hnone. apply map_eq. intros j. destruct (decide (i = j)) as [<-|Hne].
  - now rewrite lookup_alter_eq, Hnone.
  - now rewrite lookup_alter_ne.
Qed.

Lemma with_tickets_same (f : gmap string Ticket → gmap string Ticket) d :
  f (tickets d) = tickets d → with_tickets f d = d.
Proof. intros Hf. destruct d. unfold with_tickets. simpl in *. now rewrite Hf. Qed.

Section TicketOps.
Variable ticket_id : string.
Variable w : World.
Hypothesis lock_free : db_lock w = false.

Lemma get_ticket_spec :
  ∃ w', Database.get_ticket ticket_id w = Ret (tickets (db_file w) !! ticket_id) w' ∧
        db_file w' = db_file w ∧ db_lock w' = false.
Proof using lock_free.
  unfold Database.get_ticket, Database.select_ticket. enter_guard lock_free.
  destruct (tickets (db_file w) !! ticket_id); simpl; eauto.
Qed.

Lemma update_ticket_spec updates :
  updates ≠ [] →
  ∃ w', Database.update_ticket ticket_id updates w
          = Ret (bool_decide (is_Some (tickets (db_file w) !! ticket_id))) w' ∧
        db_lock w' = false ∧
        db_file w' = with_tickets
                       (alter (fun t => fold_left Database.assign_ticket updates t) ticket_id)
                       (db_file w).
Proof using lock_free.
  intros Hsome. destruct updates as [|a rest]; [congruence|].
  unfold Database.update_ticket, Database.update_tickets. enter_guard lock_free.
  destruct (tickets (db_file w) !! ticket_id); simpl; eauto.
Qed.

Lemma delete_ticket_spec :
  ∃ w', Database.delete_ticket ticket_id w
          = Ret (bool_decide (is_Some (tickets (db_file w) !! ticket_id))) w' ∧
        db_lock w' = false ∧
        db_file w' = with_tickets (delete ticket_id) (db_file w).
Proof using lock_free.
  unfold Database.delete_ticket, Database.delete_tickets. enter_guard lock_free.
  destruct (tickets (db_file w) !! ticket_id); simpl; eauto.
Qed.
End TicketOps.

(* What a sequence of assignments does to one column of the row: nothing
   when none of them names it, and the value of the one that names it
   otherwise. *)
Lemma fold_assign_kept {V} (column : Ticket → V) (name : string) :
  (∀ t a, Database.assigned_column a ≠ name → column (Database.assign_ticket t a) = column t) →
  ∀ updates t, name ∉ Database.assigned_column <$> updates →
    column (fold_left Database.assign_ticket updates t) = column t.
Proof.
  intros Hstep updates. induction updates as [|a rest IH]; intros t Hno; [reflexivity|].
  cbn [fold_left]. rewrite fmap_cons, not_elem_of_cons in Hno. destruct Hno as [Hne Hno].
  rewrite IH by exact Hno. apply Hstep. congruence.
Qed.

Lemma fold_assign_carried {V} (column : Ticket → V) (set : V → Database.ticket_assignment)
    (name : string) :
  (∀ t a, Database.assigned_column a ≠ name → column (Database.assign_ticket t a) = column t) →
  (∀ t v, column (Database.assign_ticket t (set v)) = v) →
  (∀ v, Database.assigned_column (set v) = name) →
  ∀ updates t v, NoDup (Database.assigned_column <$> updates) → set v ∈ updates →
    column (fold_left Database.assign_ticket updates t) = v.
Proof.
  intros Hstep Hset Hname updates.
  induction updates as [|a rest IH]; intros t v Hnd Hin; [inversion Hin|].
  rewrite fmap_cons in Hnd. apply NoDup_cons in Hnd as [Hfirst Hnd]. cbn [fold_left].
  apply elem_of_cons in Hin as [<-|Hin].
  - rewrite (fold_assign_kept column name Hstep); [apply Hset|]. now rewrite <- (Hname v).
  - now apply IH.
Qed.

Ltac column_steps :=
  first [ intros t0 a0 Hne; destruct a0; try reflexivity; now destruct Hne
        | intros; reflexivity ].

Ltac column_carried :=
  first
    [ apply (fold_assign_carried user_id Database.set_user_id "user_id"%string); column_steps
    | apply (fold_assign_carried user_name Database.set_user_name "user_name"%string); column_steps
    | apply (fold_assign_carried guild_id Database.set_guild_id "guild_id"%string); column_steps
    | apply (fold_assign_carried guild_name Database.set_guild_name "guild_name"%string); column_steps
    | apply (fold_assign_carried message Database.set_message "message"%string); column_steps
    | apply (fold_assign_carried status Database.set_status "status"%string); column_steps
    | apply (fold_assign_carried created_at Database.set_created_at "created_at"%string); column_steps
    | apply (fold_assign_carried admin_response Database.set_admin_response "admin_response"%string); column_steps
    | apply (fold_assign_carried admin_responder Database.set_admin_responder "admin_responder"%string); column_steps
    | apply (fold_assign_carried response_timestamp Database.set_response_timestamp "response_timestamp"%string); column_steps
    | apply (fold_assign_carried closed_by Database.set_closed_by "closed_by"%string); column_steps
    | apply (fold_assign_carried closed_timestamp Database.set_closed_timestamp "closed_timestamp"%string); column_steps ].

Ltac column_kept :=
  first
    [ apply (fold_assign_kept user_id "user_id"%string); column_steps
    | apply (fold_assign_kept user_name "user_name"%string); column_steps
    | apply (fold_assign_kept guild_id "guild_id"%string); column_steps
    | apply (fold_assign_kept guild_name "guild_name"%string); column_steps
    | apply (fold_assign_kept message "message"%string); column_steps
    | apply (fold_assign_kept status "status"%string); column_steps
    | apply (fold_assign_kept created_at "created_at"%string); column_steps
    | apply (fold_assign_kept admin_response "admin_response"%string); column_steps
    | apply (fold_assign_kept admin_responder "admin_responder"%string); column_steps
    | apply (fold_assign_kept response_timestamp "response_timestamp"%string); column_steps
    | apply (fold_assign_kept closed_by "closed_by"%string); column_steps
    | apply (fold_assign_kept closed_timestamp "closed_timestamp"%string); column_steps ].

(** C8.  [update_ticket] with no field returns [False] at once, in any
    state and leaving it untouched (the guard is not even entered).  With at
    least one field, in a state where the lock is free, it returns [True]
    when a ticket has the given id, and it returns [False] when no ticket
    has the id, the stored state being as before.  So the result is [True]
    exactly when the field set is not empty and a row matched.  The matched
    row then carries the given fields: a column named by no keyword keeps
    its value, and, the keywords being those of a dict and so distinct, a
    column named by one has the value given with it.  The other tickets and
    the other tables are as before.  [tickets.update_ticket] is the same
    operation. *)
Theorem update_ticket_result (ticket_id : string) (updates : list Database.ticket_assignment)
    (w : World) :
  (∀ w0, Database.update_ticket ticket_id [] w0 = Ret false w0) ∧
  Tickets.update_ticket ticket_id updates w = Database.update_ticket ticket_id updates w ∧
  (db_lock w = false →
   ∃ w',
    Database.update_ticket ticket_id updates w
      = Ret (match updates, tickets (db_file w) !! ticket_id with
             | _ :: _, Some _ => true
             | _, _ => false
             end) w' ∧
    (tickets (db_file w) !! ticket_id = None → db_file w' = db_file w) ∧
    (updates ≠ [] →
     tickets (db_file w') !! ticket_id
       = (fun t => fold_left Database.assign_ticket updates t) <$> tickets (db_file w) !! ticket_id) ∧
    (∀ other, other ≠ ticket_id →
       tickets (db_file w') !! other = tickets (db_file w) !! other) ∧
    (guild_config (db_file w'), user_reactions (db_file w'),
     admin_users (db_file w'), banned_users (db_file w'))
      = (guild_config (db_file w), user_reactions (db_file w),
         admin_users (db_file w), banned_users (db_file w)) ∧
    (∀ t, tickets (db_file w) !! ticket_id = Some t →
      ∃ t', tickets (db_file w') !! ticket_id = Some t' ∧
        (NoDup (Database.assigned_column <$> updates) →
         (∀ v, Database.set_user_id v ∈ updates → user_id t' = v) ∧
         (∀ v, Database.set_user_name v ∈ updates → user_name t' = v) ∧
         (∀ v, Database.set_guild_id v ∈ updates → guild_id t' = v) ∧
         (∀ v, Database.set_guild_name v ∈ updates → guild_name t' = v) ∧
         (∀ v, Database.set_message v ∈ updates → message t' = v) ∧
         (∀ v, Database.set_status v ∈ updates → status t' = v) ∧
         (∀ v, Database.set_created_at v ∈ updates → created_at t' = v) ∧
         (∀ v, Database.set_admin_response v ∈ updates → admin_response t' = v) ∧
         (∀ v, Database.set_admin_responder v ∈ updates → admin_responder t' = v) ∧
         (∀ v, Database.set_response_timestamp v ∈ updates → response_timestamp t' = v) ∧
         (∀ v, Database.set_closed_by v ∈ updates → closed_by t' = v) ∧
         (∀ v, Database.set_closed_timestamp v ∈ updates → closed_timestamp t' = v)) ∧
      ("user_id"%string ∉ Database.assigned_column <$> updates → user_id t' = user_id t) ∧
      ("user_name"%string ∉ Database.assigned_column <$> updates → user_name t' = user_name t) ∧
      ("guild_id"%string ∉ Database.assigned_column <$> updates → guild_id t' = guild_id t) ∧
      ("guild_name"%string ∉ Database.assigned_column <$> updates → guild_name t' = guild_name t) ∧
      ("message"%string ∉ Database.assigned_column <$> updates → message t' = message t) ∧
      ("status"%string ∉ Database.assigned_column <$> updates → status t' = status t) ∧
      ("created_at"%string ∉ Database.assigned_column <$> updates → created_at t' = created_at t) ∧
      ("admin_response"%string ∉ Database.assigned_column <$> updates → admin_response t' = admin_response t) ∧
      ("admin_responder"%string ∉ Database.assigned_column <$> updates → admin_responder t' = admin_responder t) ∧
      ("response_timestamp"%string ∉ Database.assigned_column <$> updates → response_timestamp t' = response_timestamp t) ∧
      ("closed_by"%string ∉ Database.assigned_column <$> updates → closed_by t' = closed_by t) ∧
      ("closed_timestamp"%string ∉ Database.assigned_column <$> updates → closed_timestamp t' = closed_timestamp t))).
Proof.
  split; [reflexivity|]. split; [reflexivity|]. intros Hfree.
  destruct updates as [|a rest].
  - exists w. split; [reflexivity|]. split; [reflexivity|]. split; [congruence|].
    split; [reflexivity|]. split; [reflexivity|].
    intros t Hrow. exists t. split; [exact Hrow|]. split; [intros _|].
    + repeat apply conj; intros v Hin; inversion Hin.
    + repeat apply conj; reflexivity.
  - destruct (update_ticket_spec ticket_id w Hfree (a :: rest)) as (w' & Hrun & _ & Hdb);
      [discriminate|].
    set (updates := a :: rest) in *.
    exists w'. rewrite Hrun, Hdb.
    split; [now destruct (tickets (db_file w) !! ticket_id)|].
    split; [intros Hnone; apply with_tickets_same; now apply alter_absent|].
    split; [intros _; simpl; apply lookup_alter_eq|].
    split; [intros other Hne; simpl; now apply lookup_alter_ne|].
    split; [reflexivity|].
    intros t Hrow. exists (fold_left Database.assign_ticket updates t).
    split; [simpl; now rewrite lookup_alter_eq, Hrow|]. split.
    + intros Hnd. repeat apply conj; intros v Hin; revert v Hnd Hin;
        generalize t; generalize updates; column_carried.
    + repeat apply conj; intros Hno; revert Hno;
        generalize t; generalize updates; column_kept.
Qed.

Lemma update_ticket_result_witness :
  db_lock (idle one_ticket_db) = false ∧
  tickets (db_file (idle one_ticket_db)) !! "abcd1234"%string = Some a_ticket ∧
  NoDup (Database.assigned_column
           <$> [Database.set_message "more"; Database.set_admin_response (Some "seen")]%string) ∧
  (∃ w' t',
     Database.update_ticket "abcd1234"
       [Database.set_message "more"; Database.set_admin_response (Some "seen")]
       (idle one_ticket_db) = Ret true w' ∧
     tickets (db_file w') !! "abcd1234"%string = Some t' ∧
     message t' = "more"%string ∧
     admin_response t' = Some "seen"%string ∧
     status t' = "open"%string ∧
     user_id t' = 7) ∧
  (∃ w', Database.update_ticket "nosuchid" [Database.set_message "more"] (idle one_ticket_db)
           = Ret false w' ∧ db_file w' = one_ticket_db).
Proof.
  assert (Hnd : NoDup (Database.assigned_column
            <$> [Database.set_message "more"; Database.set_admin_response (Some "seen")]%string))
    by (apply (bool_decide_unpack _); vm_compute; exact I).
  split; [reflexivity|]. split; [reflexivity|]. split; [exact Hnd|]. split.
  - destruct (update_ticket_result "abcd1234"
                [Database.set_message "more"; Database.set_admin_response (Some "seen")]%string
                (idle one_ticket_db)) as (_ & _ & Hupd).
    destruct (Hupd eq_refl) as (w' & Hrun & _ & _ & _ & _ & Hcols).
    destruct (Hcols a_ticket eq_refl) as (t' & Hrow & Hcarried & Hkept).
    exists w', t'. split; [exact Hrun|]. split; [exact Hrow|].
    specialize (Hcarried Hnd).
    split; [|split; [|split]].
    + do 4 apply proj2 in Hcarried. apply proj1 in Hcarried.
      apply Hcarried. apply elem_of_cons. now left.
    + do 7 apply proj2 in Hcarried. apply proj1 in Hcarried.
      apply Hcarried. apply elem_of_cons. right. apply elem_of_cons. now left.
    + do 5 apply proj2 in Hkept. apply proj1 in Hkept. rewrite Hkept; [reflexivity|].
      apply (bool_decide_unpack _). vm_compute. exact I.
    + apply proj1 in Hkept. rewrite Hkept; [reflexivity|].
      apply (bool_decide_unpack _). vm_compute. exact I.
  - destruct (update_ticket_result "nosuchid" [Database.set_message "more"%string]
                (idle one_ticket_db)) as (_ & _ & Hupd).
    destruct (Hupd eq_refl) as (w' & Hrun & Hdb & _).
    exists w'. split; [exact Hrun | apply Hdb; reflexivity].
Defined.

(** C6, as the code has it.  For a stored ticket, in a state where the lock
    is free, [close_ticket] returns [True] and the ticket read back has
    status "closed_by_<closed_by>", [closed_by] and [closed_timestamp] (the
    clock at the call) stamped; [admin_response] is stamped exactly when a
    non-empty response is given, whatever the responder; [admin_responder]
    and [response_timestamp] (a second clock reading) are stamped exactly
    when a non-empty responder is given; every other field is as before. *)
Theorem close_ticket_stamps (ticket_id by_ : string) (response responder : option string)
    (w : World) (t : Ticket) :
  db_lock w = false →
  tickets (db_file w) !! ticket_id = Some t →
  ∃ w' t',
    Database.close_ticket ticket_id by_ response responder w = Ret true w' ∧
    (∃ w'', Database.get_ticket ticket_id w' = Ret (Some t') w'') ∧
    status t' = ("closed_by_" +:+ by_)%string ∧
    closed_by t' = Some by_ ∧
    closed_timestamp t' = Some (local_clock w (ticks w)) ∧
    admin_response t' = (if truthy_str response then response else admin_response t) ∧
    admin_responder t' = (if truthy_str responder then responder else admin_responder t) ∧
    response_timestamp t' = (if truthy_str responder
                             then Some (local_clock w (S (ticks w)))
                             else response_timestamp t) ∧
    (user_id t', user_name t', guild_id t', guild_name t', message t', created_at t')
      = (user_id t, user_name t, guild_id t, guild_name t, message t, created_at t).
Proof.
  intros Hfree Hrow. unfold Database.close_ticket, datetime_now.
  assert (Hread : ∀ w1 ups, ups ≠ [] → db_lock w1 = false → db_file w1 = db_file w →
            ∃ w', Database.update_ticket ticket_id ups w1 = Ret true w' ∧
                  db_lock w' = false ∧
                  tickets (db_file w') !! ticket_id
                    = Some (fold_left Database.assign_ticket ups t)).
  { intros w1 ups Hups Hfree1 Hdb1.
    destruct (update_ticket_spec ticket_id w1 Hfree1 ups Hups) as (w' & Hrun & Hfree' & Hdb').
    exists w'. rewrite Hrun, Hdb', Hdb1, Hrow. simpl. rewrite lookup_alter_eq, Hrow.
    repeat split; auto. }
  unfold bind at 1.
  destruct (truthy_str responder) eqn:Hresponder; [unfold bind at 1|];
    destruct (truthy_str response) eqn:Hresponse;
    match goal with
    | |- context [Database.update_ticket _ ?ups ?w1] =>
        destruct (Hread w1 ups) as (w' & Hrun & Hfree' & Hrow');
          [ discriminate | exact Hfree | reflexivity | ]
    end;
    destruct (get_ticket_spec ticket_id w' Hfree') as (w'' & Hget & _);
    exists w'; eexists; (split; [exact Hrun|]);
    (split; [exists w''; rewrite Hget, Hrow'; reflexivity|]);
    simpl; repeat split.
Qed.

Lemma close_ticket_stamps_witness :
  db_lock (idle one_ticket_db) = false ∧
  tickets (db_file (idle one_ticket_db)) !! "abcd1234"%string = Some a_ticket ∧
  ∃ w' w'' t',
    Database.close_ticket "abcd1234" "admin" (Some "resp") (Some "respName")
      (idle one_ticket_db) = Ret true w' ∧
    Database.get_ticket "abcd1234" w' = Ret (Some t') w'' ∧
    status t' = "closed_by_admin"%string ∧
    admin_response t' = Some "resp"%string.
Proof.
  split; [reflexivity|]. split; [reflexivity|].
  destruct (close_ticket_stamps "abcd1234" "admin" (Some "resp"%string) (Some "respName"%string)
              (idle one_ticket_db) a_ticket eq_refl eq_refl)
    as (w' & t' & Hrun & (w'' & Hget) & Hstatus & _ & _ & Hresp & _).
  exists w', w'', t'. auto.
Defined.

(** C6 as stated fails: a response given without a responder is stamped all
    the same, while the responder and the response time stay empty. *)
Lemma close_ticket_response_without_responder :
  admin_response a_ticket = None ∧
  result_of ((do _closed <- Database.close_ticket "abcd1234" "admin" (Some "resp") None;
              Database.get_ticket "abcd1234") (idle one_ticket_db))
  = Some (Some (mkTicket 7 "ann" 8 "guild" "help" "closed_by_admin" 0
                         (Some "resp") None None (Some "admin") (Some 0)))%string.
Proof. split; reflexivity. Qed.

(** ** Ticket ids *)

Lemma ticket_id_length u : String.length (substring 0 8 (str_uuid u)) = 8%nat.
Proof.
  unfold str_uuid, hex32.
  cbn [hex_onto substring append String.app String.length]. reflexivity.
Qed.














(** ** Cleaning up old tickets *)

Lemma collect_old_closed_spec cutoff (items : list (string * Ticket)) id :
  id ∈ Tickets.collect_old_closed cutoff items ↔
  ∃ t, (id, t) ∈ items ∧ old_and_closed cutoff t = true.
Proof.
  unfold old_and_closed.
  induction items as [|[k t] rest IH]; simpl.
  - split; [intros H; inversion H | intros (t & H & _); inversion H].
  - destruct (String.prefix "closed" (status t)) eqn:Hclosed;
      [destruct (created_at t <? cutoff) eqn:Hold|].
    + rewrite elem_of_cons, IH. split.
      * intros [->|(t' & Hin & Hsel)].
        -- exists t. rewrite Hclosed, Hold. split; [left|]; reflexivity.
        -- exists t'. split; [now right | exact Hsel].
      * intros (t' & Hin & Hsel). apply elem_of_cons in Hin as [Heq|Hin].
        -- left. congruence.
        -- right. eauto.
    + rewrite IH. split.
      * intros (t' & Hin & Hsel). exists t'. split; [now right | exact Hsel].
      * intros (t' & Hin & Hsel). apply elem_of_cons in Hin as [Heq|Hin]; [|eauto].
        inversion Heq; subst. rewrite Hclosed, Hold in Hsel. discriminate.
    + rewrite IH. split.
      * intros (t' & Hin & Hsel). exists t'. split; [now right | exact Hsel].
      * intros (t' & Hin & Hsel). apply elem_of_cons in Hin as [Heq|Hin]; [|eauto].
        inversion Heq; subst. rewrite Hclosed in Hsel. discriminate.
Qed.

Lemma collect_old_closed_NoDup cutoff (items : list (string * Ticket)) :
  NoDup (items.*1) → NoDup (Tickets.collect_old_closed cutoff items).
Proof.
  induction items as [|[k t] rest IH]; simpl; intros Hnd; [constructor|].
  apply NoDup_cons in Hnd as [Hfresh Hnd].
  destruct (String.prefix "closed" (status t)); [destruct (created_at t <? cutoff)|]; auto.
  apply NoDup_cons. split; [|auto].
  intros Hin. apply collect_old_closed_spec in Hin as (t' & Hin & _).
  apply Hfresh. apply list_elem_of_fmap. exists (k, t'). split; [reflexivity | exact Hin].
Qed.

Lemma get_all_tickets_spec status_filter w :
  db_lock w = false →
  Database.get_all_tickets status_filter w
    = Ret (Database.select_tickets status_filter (db_file w))
          (release (close (commit (db_file w) (enter w)))).
Proof. intros Hfree. unfold Database.get_all_tickets. now enter_guard Hfree. Qed.

Lemma delete_each_spec ids :
  ∀ count w,
    db_lock w = false →
    NoDup ids →
    (∀ id, id ∈ ids → is_Some (tickets (db_file w) !! id)) →
    ∃ w', Tickets.delete_each ids count w = Ret (count + Z.of_nat (length ids)) w' ∧
          db_lock w' = false ∧
          (∀ k, tickets (db_file w') !! k
                = if bool_decide (k ∈ ids) then None else tickets (db_file w) !! k) ∧
          (size (tickets (db_file w')) + length ids = size (tickets (db_file w)))%nat ∧
          guild_config (db_file w') = guild_config (db_file w) ∧
          user_reactions (db_file w') = user_reactions (db_file w) ∧
          admin_users (db_file w') = admin_users (db_file w) ∧
          banned_users (db_file w') = banned_users (db_file w).
Proof.
  induction ids as [|id rest IH]; intros count w Hfree Hnd Hstored.
  - exists w. simpl. rewrite Z.add_0_r. repeat split; auto.
  - apply NoDup_cons in Hnd as [Hfresh Hnd].
    destruct (delete_ticket_spec id w Hfree) as (w1 & Hrun1 & Hfree1 & Hdb1).
    assert (Hid : is_Some (tickets (db_file w) !! id)) by (apply Hstored; left).
    rewrite bool_decide_eq_true_2 in Hrun1 by exact Hid.
    destruct (IH (count + 1) w1 Hfree1 Hnd) as (w' & Hrun & Hfree' & Hlook & Hsize & Hg & Hr & Ha & Hb).
    { intros id' Hin. rewrite Hdb1. simpl. rewrite lookup_delete_ne.
      - apply Hstored. now right.
      - intros ->. contradiction. }
    exists w'. simpl. unfold Tickets.db_delete_ticket.
    rewrite (bind_ret _ _ _ _ _ Hrun1), Hrun.
    rewrite Hdb1 in Hlook, Hsize, Hg, Hr, Ha, Hb. simpl in *.
    split; [f_equal; lia|]. split; [exact Hfree'|]. split; [|split; [|auto]].
    + intros k. rewrite Hlook.
      destruct (decide (k = id)) as [->|Hne].
      * rewrite lookup_delete_eq, (bool_decide_eq_true_2 (id ∈ id :: rest)) by left.
        now destruct (bool_decide (id ∈ rest)).
      * rewrite lookup_delete_ne by congruence.
        destruct (decide (k ∈ rest)) as [Hin|Hout].
        -- rewrite !bool_decide_eq_true_2; [reflexivity | now right | exact Hin].
        -- rewrite !bool_decide_eq_false_2; [reflexivity | | exact Hout].
           intros Hin. apply elem_of_cons in Hin as [?|?]; contradiction.
    + rewrite map_size_delete_Some in Hsize by exact Hid.
      destruct Hid as [t Ht].
      assert (size (tickets (db_file w)) ≠ 0%nat).
      { intros Hz. apply map_size_empty_inv in Hz. rewrite Hz in Ht. discriminate. }
      lia.
Qed.

Lemma sorted_rows_stored (m : gmap string Ticket) id t :
  (id, t) ∈ merge_sort Database.created_desc (map_to_list m) ↔ m !! id = Some t.
Proof. rewrite merge_sort_Permutation. apply elem_of_map_to_list. Qed.

Lemma sorted_rows_NoDup (m : gmap string Ticket) :
  NoDup ((merge_sort Database.created_desc (map_to_list m)).*1).
Proof. rewrite merge_sort_Permutation. apply NoDup_fst_map_to_list. Qed.

(* The cut-off [cleanup_old_tickets] computes is a date of the calendar. *)
Lemma cleanup_with_cutoff (days_old : Z) (w : World) :
  db_lock w = false →
  -999999999 <= days_old <= 999999999 →
  datetime_min <= local_clock w (ticks w) - timedelta_days days_old <= datetime_max →
  Tickets.cleanup_old_tickets days_old w
  = Tickets.delete_each
      (Tickets.collect_old_closed (local_clock w (ticks w) - timedelta_days days_old)
         (merge_sort Database.created_desc (map_to_list (tickets (db_file w)))))
      0 (tick (release (close (commit (db_file w) (enter w))))).
Proof.
  intros Hfree Hdays Hcutoff.
  unfold Tickets.cleanup_old_tickets, Tickets.db_get_all_tickets.
  rewrite (bind_ret _ _ _ _ _ (get_all_tickets_spec None w Hfree)).
  unfold Database.select_tickets, truthy_str, datetime_now, timedelta, datetime_sub.
  unfold bind at 1.
  cbn [local_clock ticks release close commit enter connect log
       set_db_lock set_open_connections set_db_file tick].
  rewrite (decide_True (P := -999999999 <= days_old <= 999999999)) by exact Hdays.
  unfold bind at 1, ret at 1.
  rewrite (decide_True (P := datetime_min <= _ <= datetime_max)) by exact Hcutoff.
  reflexivity.
Qed.

(* It is not: the subtraction, or the timedelta before it, raises, after the
   tickets have been read and before any is deleted. *)
Lemma cleanup_without_cutoff (days_old : Z) (w : World) :
  db_lock w = false →
  ¬ (-999999999 <= days_old <= 999999999 ∧
     datetime_min <= local_clock w (ticks w) - timedelta_days days_old <= datetime_max) →
  Tickets.cleanup_old_tickets days_old w
  = Raise OverflowError (tick (release (close (commit (db_file w) (enter w))))).
Proof.
  intros Hfree Hout.
  unfold Tickets.cleanup_old_tickets, Tickets.db_get_all_tickets.
  rewrite (bind_ret _ _ _ _ _ (get_all_tickets_spec None w Hfree)).
  unfold Database.select_tickets, truthy_str, datetime_now, timedelta, datetime_sub.
  unfold bind at 1.
  cbn [local_clock ticks release close commit enter connect log
       set_db_lock set_open_connections set_db_file tick].
  destruct (decide (-999999999 <= days_old <= 999999999)) as [Hdays|Hdays];
    [|reflexivity].
  unfold bind at 1, ret at 1.
  rewrite (decide_False (P := datetime_min <= _ <= datetime_max)) by tauto.
  reflexivity.
Qed.

(** C7, amended.  For every stored set of tickets and every [days_old], in
    a state where the lock is free, with the cut-off being the clock at the
    call minus [days_old] days.  When the cut-off is a date of the calendar
    ([days_old] of magnitude at most 999999999 and the cut-off between
    [datetime.min] and [datetime.max]), [cleanup_old_tickets] returns, and
    afterwards a ticket is stored exactly when it was stored before and is
    not both of status beginning with "closed" and created before the
    cut-off; the number returned is the number of tickets that disappeared;
    a ticket of status "open" is still stored, unchanged, whatever its age;
    the other tables are as before.  When the cut-off is not such a date,
    the call raises [OverflowError], nothing is deleted and the lock is
    free. *)
Theorem cleanup_removes_old_closed (days_old : Z) (w : World) :
  db_lock w = false →
  (-999999999 <= days_old <= 999999999 →
   datetime_min <= local_clock w (ticks w) - timedelta_days days_old <= datetime_max →
   ∃ n w',
     Tickets.cleanup_old_tickets days_old w = Ret n w' ∧
     (∀ id, tickets (db_file w') !! id
            = match tickets (db_file w) !! id with
              | Some t =>
                  if String.prefix "closed" (status t)
                     && (created_at t <? local_clock w (ticks w) - timedelta_days days_old)
                  then None else Some t
              | None => None
              end) ∧
     Z.of_nat (size (tickets (db_file w))) = Z.of_nat (size (tickets (db_file w'))) + n ∧
     (∀ id t, tickets (db_file w) !! id = Some t → status t = "open"%string →
              tickets (db_file w') !! id = Some t) ∧
     (guild_config (db_file w'), user_reactions (db_file w'),
      admin_users (db_file w'), banned_users (db_file w'))
       = (guild_config (db_file w), user_reactions (db_file w),
          admin_users (db_file w), banned_users (db_file w))) ∧
  (¬ (-999999999 <= days_old <= 999999999 ∧
      datetime_min <= local_clock w (ticks w) - timedelta_days days_old <= datetime_max) →
   ∃ w', Tickets.cleanup_old_tickets days_old w = Raise OverflowError w' ∧
         db_file w' = db_file w ∧ db_lock w' = false).
Proof.
  intros Hfree. split.
  2: { intros Hout. rewrite (cleanup_without_cutoff days_old w Hfree Hout).
       eexists. split; [reflexivity|]. split; reflexivity. }
  intros Hdays Hcutoff.
  rewrite (cleanup_with_cutoff days_old w Hfree Hdays Hcutoff).
  set (cutoff := local_clock w (ticks w) - timedelta_days days_old).
  set (rows := merge_sort Database.created_desc (map_to_list (tickets (db_file w)))).
  set (w1 := release (close (commit (db_file w) (enter w)))).
  destruct (delete_each_spec (Tickets.collect_old_closed cutoff rows) 0 (tick w1))
    as (w' & Hrun & _ & Hlook & Hsize & Hg & Hr & Ha & Hb).
  { reflexivity. }
  { apply collect_old_closed_NoDup, sorted_rows_NoDup. }
  { intros id Hin. apply collect_old_closed_spec in Hin as (t & Hin & _).
    apply sorted_rows_stored in Hin. simpl. eauto. }
  assert (Hpoint : ∀ id, tickets (db_file w') !! id
            = match tickets (db_file w) !! id with
              | Some t => if String.prefix "closed" (status t) && (created_at t <? cutoff)
                          then None else Some t
              | None => None
              end).
  { intros id. rewrite Hlook. simpl.
    destruct (tickets (db_file w) !! id) as [t|] eqn:Hrow.
    - destruct (String.prefix "closed" (status t) && (created_at t <? cutoff)) eqn:Hsel.
      + rewrite bool_decide_eq_true_2; [reflexivity|].
        apply collect_old_closed_spec. exists t. split; [now apply sorted_rows_stored|].
        unfold old_and_closed. apply andb_true_iff in Hsel as [-> ->]. reflexivity.
      + rewrite bool_decide_eq_false_2; [reflexivity|].
        intros Hin. apply collect_old_closed_spec in Hin as (t' & Hin & Hold).
        apply sorted_rows_stored in Hin. rewrite Hrow in Hin. inversion Hin; subst t'.
        unfold old_and_closed in Hold.
        destruct (String.prefix "closed" (status t)); simpl in Hsel; congruence.
    - now destruct (bool_decide _). }
  exists (0 + Z.of_nat (length (Tickets.collect_old_closed cutoff rows))), w'.
  split; [exact Hrun|split; [exact Hpoint|split; [|split]]].
  - simpl in Hsize. lia.
  - intros id t Hrow Hopen. rewrite Hpoint, Hrow, Hopen. reflexivity.
  - simpl in Hg, Hr, Ha, Hb. now rewrite Hg, Hr, Ha, Hb.
Qed.

Lemma cleanup_removes_old_closed_witness :
  db_lock day500 = false ∧
  -999999999 <= 30 <= 999999999 ∧
  datetime_min <= local_clock day500 (ticks day500) - timedelta_days 30 <= datetime_max ∧
  ∃ n w',
    Tickets.cleanup_old_tickets 30 day500 = Ret n w' ∧
    tickets (db_file w') !! "closed31"%string = None ∧
    is_Some (tickets (db_file w') !! "closed29"%string) ∧
    is_Some (tickets (db_file w') !! "open400"%string).
Proof.
  assert (Hdays : -999999999 <= 30 <= 999999999) by lia.
  assert (Hcutoff : datetime_min
                    <= local_clock day500 (ticks day500) - timedelta_days 30 <= datetime_max)
    by (vm_compute; split; discriminate).
  split; [reflexivity|]. split; [exact Hdays|]. split; [exact Hcutoff|].
  destruct (proj1 (cleanup_removes_old_closed 30 day500 eq_refl) Hdays Hcutoff)
    as (n & w' & Hrun & Hpoint & _).
  exists n, w'. split; [exact Hrun|].
  rewrite !Hpoint. repeat split; eexists; reflexivity.
Defined.

(** C7 as stated fails: with [days_old] one million, on day 500 of the
    calendar, the cut-off would lie before [datetime.min]; the call raises
    [OverflowError] instead of returning a count, and the three tickets are
    all still stored. *)
Lemma cleanup_overflow_raises :
  raised_of (Tickets.cleanup_old_tickets 1000000 day500) = Some OverflowError ∧
  result_of (Tickets.cleanup_old_tickets 1000000 day500) = None ∧
  db_file (world_of (Tickets.cleanup_old_tickets 1000000 day500)) = three_tickets_db.
Proof. split; [|split]; vm_compute; reflexivity. Qed.

(** ** Guild configuration and the lock *)

Lemma set_guild_config_blocks g c l s w :
  db_lock w = false →
  Database.set_guild_config g c l s w = Blocked (log EvAcquireWhileHeld (enter w)).
Proof.
  intros Hfree. unfold Database.set_guild_config.
  apply guard_blocks; [exact Hfree|].
  apply bind_blocked. unfold Database.get_guild_config. now apply guard_held.
Qed.

Lemma set_guild_config_stores_nothing g c l s w :
  db_file (world_of (Database.set_guild_config g c l s w)) = db_file w.
Proof.
  destruct (db_lock w) eqn:Hlock.
  - unfold Database.set_guild_config. now rewrite guard_held.
  - now rewrite set_guild_config_blocks.
Qed.

(* A guard whose body does not itself touch the lock requests it once, free. *)
Lemma guard_alone_never_nests {A} (fn : Conn → Op (A * Conn)) w :
  db_lock w = false →
  (∀ conn w1, trace (world_of (fn conn w1)) = trace w1) →
  nested_acquisitions (world_of (get_db_connection fn w)) = nested_acquisitions w.
Proof.
  intros Hfree Hquiet. unfold get_db_connection. rewrite Hfree. cbv zeta.
  specialize (Hquiet (db_file (enter w)) (enter w)).
  destruct (fn (db_file (enter w)) (enter w)) as [[a conn'] w2|e w2|w2];
    simpl in Hquiet; unfold nested_acquisitions; simpl;
    [ | destruct (is_Exception e); simpl | ];
    rewrite Hquiet, ?count_occ_app; simpl; lia.
Qed.

(** C1, on the code.  [set_guild_config] enters the guard and then calls
    [get_guild_config], which requests the lock again while it is held:
    one nested acquisition, on which the call blocks with the lock held and
    the connection open. *)
Theorem set_guild_config_nests_the_lock :
  Database.set_guild_config 1 (Some 10) None None (idle empty_db)
    = Blocked (log EvAcquireWhileHeld (enter (idle empty_db))) ∧
  nested_acquisitions
    (world_of (Database.set_guild_config 1 (Some 10) None None (idle empty_db))) = 1%nat ∧
  db_lock (world_of (Database.set_guild_config 1 (Some 10) None None (idle empty_db))) = true ∧
  trace (world_of (Database.set_guild_config 1 (Some 10) None None (idle empty_db)))
    = [EvAcquire; EvMakedirs; EvConnect; EvAcquireWhileHeld].
Proof. repeat split. Qed.

(** C4, on the code.  The first [set_guild_config] of the sequence blocks
    (see C1): the sequence returns nothing and no row is stored. *)
Theorem partial_update_sequence_blocks :
  result_of ((do _a <- Database.set_guild_config 1 (Some 10) None None;
              do _b <- Database.set_guild_config 1 None (Some 20) None;
              Database.get_guild_config 1) (idle empty_db)) = None ∧
  (do _a <- Database.set_guild_config 1 (Some 10) None None;
   do _b <- Database.set_guild_config 1 None (Some 20) None;
   Database.get_guild_config 1) (idle empty_db)
    = Blocked (log EvAcquireWhileHeld (enter (idle empty_db))) ∧
  guild_config
    (db_file (world_of (Database.set_guild_config 1 (Some 10) None None (idle empty_db)))) = ∅.
Proof. repeat split. Qed.

(* What the statements of set_guild_config do to a row that exists. *)
Lemma set_guild_config_write_existing g c l s existing conn w r :
  guild_config conn !! g = Some r →
  ∃ conn' w' r',
    Database.set_guild_config_write g c l s (Some existing) conn w = Ret (tt, conn') w' ∧
    guild_config conn' !! g = Some r' ∧
    channel_id r' = match c with Some v => Some v | None => channel_id r end ∧
    log_channel_id r' = match l with Some v => Some v | None => log_channel_id r end ∧
    support_channel_id r' = match s with Some v => Some v | None => support_channel_id r end ∧
    gc_created_at r' = gc_created_at r ∧
    (∀ g', g' ≠ g → guild_config conn' !! g' = guild_config conn !! g') ∧
    (c = None → l = None → s = None → conn' = conn ∧ w' = w).
Proof.
  intros Hrow. unfold Database.set_guild_config_write, Database.guild_updates.
  destruct c as [cv|], l as [lv|], s as [sv|]; simpl;
    unfold bind, current_timestamp, execute, ret, Database.update_guild_config; simpl;
    try (do 3 eexists; split; [reflexivity|]; simpl; rewrite lookup_alter_eq, Hrow; simpl;
         split; [reflexivity|]; repeat split; try discriminate;
         intros g' Hne; now rewrite lookup_alter_ne).
  exists conn, w, r. repeat split; auto.
Qed.

(** C10.  Through [set_guild_config] no field of a guild's row goes back to
    absent.  The operation as a whole never changes the stored state (it
    blocks at its nested read, see C1).  Its statements, run on a connection
    where the guild has a row and with [existing] what the read finds
    there, give each channel field the value passed, or keep the field as
    it is when [None] is passed; they keep [created_at]; and with all three
    fields [None] they execute nothing: the connection, [updated_at]
    included, and the clock are untouched. *)
Theorem set_guild_config_never_clears (g : Z) (c l s : option Z) :
  (∀ w, db_file (world_of (Database.set_guild_config g c l s w)) = db_file w) ∧
  (∀ conn w r,
     guild_config conn !! g = Some r →
     ∃ conn' w' r',
       Database.set_guild_config_write g c l s (Database.select_guild_config g conn) conn w
         = Ret (tt, conn') w' ∧
       guild_config conn' !! g = Some r' ∧
       (is_Some (channel_id r) → is_Some (channel_id r')) ∧
       (is_Some (log_channel_id r) → is_Some (log_channel_id r')) ∧
       (is_Some (support_channel_id r) → is_Some (support_channel_id r')) ∧
       channel_id r' = match c with Some v => Some v | None => channel_id r end ∧
       log_channel_id r' = match l with Some v => Some v | None => log_channel_id r end ∧
       support_channel_id r' = match s with Some v => Some v | None => support_channel_id r end ∧
       gc_created_at r' = gc_created_at r ∧
       (c = None → l = None → s = None → conn' = conn ∧ r' = r ∧ w' = w)).
Proof.
  split; [intros w; apply set_guild_config_stores_nothing|].
  intros conn w r Hrow. unfold Database.select_guild_config. rewrite Hrow.
  destruct (set_guild_config_write_existing g c l s r conn w r Hrow)
    as (conn' & w' & r' & Hrun & Hrow' & Hc & Hl & Hs & Hcreated & _ & Hnone).
  exists conn', w', r'. rewrite Hc, Hl, Hs.
  split; [exact Hrun|]. split; [exact Hrow'|].
  split; [destruct c; eauto|]. split; [destruct l; eauto|]. split; [destruct s; eauto|].
  repeat (split; [reflexivity || exact Hcreated|]).
  intros -> -> ->. destruct (Hnone eq_refl eq_refl eq_refl) as [-> ->].
  repeat split. congruence.
Qed.

Lemma set_guild_config_never_clears_witness :
  guild_config one_guild_db !! 1 = Some (mkGuildConfig (Some 10) None None 0 0) ∧
  db_file (world_of (Database.set_guild_config 1 None None None (idle one_guild_db)))
    = one_guild_db ∧
  Database.set_guild_config_write 1 None None None
      (Database.select_guild_config 1 one_guild_db) one_guild_db (idle one_guild_db)
    = Ret (tt, one_guild_db) (idle one_guild_db).
Proof.
  split; [reflexivity|].
  destruct (set_guild_config_never_clears 1 None None None) as (Hwhole & Hwrite).
  split; [apply Hwhole|].
  destruct (Hwrite one_guild_db (idle one_guild_db) (mkGuildConfig (Some 10) None None 0 0)
              eq_refl)
    as (conn' & w' & r' & Hrun & _ & _ & _ & _ & _ & _ & _ & _ & Hsame).
  destruct (Hsame eq_refl eq_refl eq_refl) as (-> & _ & ->). exact Hrun.
Defined.

(* The statements of set_guild_config alone do what C4 asks of the
   operation: run one after the other on a connection, the first with no
   row present and the second with the row just inserted, they leave
   channel_id = X and log_channel_id = Y. *)
Lemma set_guild_config_statements_merge g x y conn w :
  guild_config conn !! g = None →
  ∃ conn1 w1 conn2 w2 r,
    Database.set_guild_config_write g (Some x) None None None conn w = Ret (tt, conn1) w1 ∧
    Database.set_guild_config_write g None (Some y) None
      (Database.select_guild_config g conn1) conn1 w1 = Ret (tt, conn2) w2 ∧
    guild_config conn2 !! g = Some r ∧
    channel_id r = Some x ∧ log_channel_id r = Some y ∧ support_channel_id r = None.
Proof.
  intros Hnone.
  set (r0 := mkGuildConfig (Some x) None None (utc_clock w (ticks w)) (utc_clock w (ticks w))).
  set (conn1 := with_guild_config (insert g r0) conn).
  assert (Hrow1 : guild_config conn1 !! g = Some r0) by (simpl; apply lookup_insert_eq).
  destruct (set_guild_config_write_existing g None (Some y) None r0 conn1 (tick w) r0 Hrow1)
    as (conn2 & w2 & r & Hrun & Hrow & Hc & Hl & Hs & _).
  exists conn1, (tick w), conn2, w2, r.
  split; [|split; [|split; [exact Hrow|]]].
  - unfold Database.set_guild_config_write, Database.insert_guild_config.
    unfold bind, current_timestamp, execute, ret. now rewrite Hnone.
  - unfold Database.select_guild_config. rewrite Hrow1. exact Hrun.
  - rewrite Hc, Hl, Hs. repeat split.
Qed.

(* Every other operation of database.py is one guard around statements: it
   requests the lock once, while it is free. *)
Lemma other_operations_never_nest w :
  db_lock w = false →
  (∀ g, nested_acquisitions (world_of (Database.get_guild_config g w)) = nested_acquisitions w) ∧
  (∀ g u, nested_acquisitions (world_of (Database.get_user_reactions g u w))
          = nested_acquisitions w) ∧
  (∀ g u n, nested_acquisitions (world_of (Database.increment_user_reactions g u n w))
            = nested_acquisitions w) ∧
  (∀ u, nested_acquisitions (world_of (Database.is_admin_user u w)) = nested_acquisitions w) ∧
  (∀ u, nested_acquisitions (world_of (Database.add_admin_user u w)) = nested_acquisitions w) ∧
  (∀ u, nested_acquisitions (world_of (Database.remove_admin_user u w))
        = nested_acquisitions w) ∧
  (∀ u, nested_acquisitions (world_of (Database.is_banned_user u w)) = nested_acquisitions w) ∧
  (∀ u why by_, nested_acquisitions (world_of (Database.ban_user u why by_ w))
                = nested_acquisitions w) ∧
  (∀ u, nested_acquisitions (world_of (Database.unban_user u w)) = nested_acquisitions w) ∧
  (∀ id uid uname gid gname msg,
     nested_acquisitions (world_of (Database.create_ticket id uid uname gid gname msg w))
     = nested_acquisitions w) ∧
  (∀ id, nested_acquisitions (world_of (Database.get_ticket id w)) = nested_acquisitions w) ∧
  (∀ id ups, nested_acquisitions (world_of (Database.update_ticket id ups w))
             = nested_acquisitions w) ∧
  (∀ id, nested_acquisitions (world_of (Database.delete_ticket id w)) = nested_acquisitions w) ∧
  (∀ sf, nested_acquisitions (world_of (Database.get_all_tickets sf w)) = nested_acquisitions w).
Proof.
  intros Hfree.
  repeat split; intros;
    try (destruct ups; [reflexivity|]);
    apply guard_alone_never_nests; try exact Hfree; quiet_body.
Qed.

(** ** The admin list, end to end *)

Lemma is_admin_user_spec u w :
  db_lock w = false →
  ∃ w', Database.is_admin_user u w = Ret (bool_decide (is_Some (admin_users (db_file w) !! u))) w' ∧
        db_lock w' = false ∧ db_file w' = db_file w.
Proof. intros Hfree. unfold Database.is_admin_user. enter_guard Hfree. eauto. Qed.

Lemma remove_admin_user_spec u w :
  db_lock w = false →
  ∃ w', Database.remove_admin_user u w
          = Ret (bool_decide (is_Some (admin_users (db_file w) !! u))) w' ∧
        db_lock w' = false ∧ db_file w' = with_admin_users (delete u) (db_file w).
Proof.
  intros Hfree. unfold Database.remove_admin_user, Database.delete_admin_user.
  enter_guard Hfree. destruct (admin_users (db_file w) !! u); simpl; eauto.
Qed.

(* add, add again, ask, remove, ask: True, False, True, True, False *)
Lemma admin_user_lifecycle u w :
  db_lock w = false →
  admin_users (db_file w) !! u = None →
  result_of ((do added <- Database.add_admin_user u;
              do again <- Database.add_admin_user u;
              do listed <- Database.is_admin_user u;
              do removed <- Database.remove_admin_user u;
              do still <- Database.is_admin_user u;
              ret (added, again, listed, removed, still)) w)
  = Some (true, false, true, true, false).
Proof.
  intros Hfree Hfresh.
  destruct (add_admin_user_spec w Hfree u) as (w1 & Hrun1 & Hfree1 & Hdb1).
  rewrite Hfresh in Hrun1, Hdb1.
  assert (Hrow1 : is_Some (admin_users (db_file w1) !! u))
    by (rewrite Hdb1; simpl; rewrite lookup_insert_eq; eauto).
  destruct (add_admin_user_spec w1 Hfree1 u) as (w2 & Hrun2 & Hfree2 & Hdb2).
  destruct Hrow1 as [row Hrow1]. rewrite Hrow1 in Hrun2, Hdb2.
  destruct (is_admin_user_spec u w2 Hfree2) as (w3 & Hrun3 & Hfree3 & Hdb3).
  destruct (remove_admin_user_spec u w3 Hfree3) as (w4 & Hrun4 & Hfree4 & Hdb4).
  destruct (is_admin_user_spec u w4 Hfree4) as (w5 & Hrun5 & _).
  rewrite Hdb2, Hrow1 in Hrun3. rewrite Hdb3, Hdb2, Hrow1 in Hrun4.
  rewrite Hdb4 in Hrun5. simpl in Hrun5. rewrite lookup_delete_eq in Hrun5.
  rewrite (bind_ret _ _ _ _ _ Hrun1), (bind_ret _ _ _ _ _ Hrun2), (bind_ret _ _ _ _ _ Hrun3),
    (bind_ret _ _ _ _ _ Hrun4), (bind_ret _ _ _ _ _ Hrun5).
  reflexivity.
Qed.


(** * Further properties *)

(** ** The lock and the connection after an operation *)

Lemma guard_ended_clean {A} (fn : Conn → Op (A * Conn)) w :
  db_lock w = false → quiet fn → ended_clean w (get_db_connection fn w).
Proof.
  intros Hfree Hquiet. unfold ended_clean, get_db_connection. rewrite Hfree. cbv zeta.
  destruct (Hquiet (db_file (enter w)) (enter w)) as (Hrun & _ & Hopen).
  destruct (fn (db_file (enter w)) (enter w)) as [[a conn'] w2|e w2|w2].
  - simpl in *. rewrite Hopen. repeat split. discriminate.
  - destruct (is_Exception e); simpl in *; rewrite Hopen; repeat split; discriminate.
  - now destruct (Hrun w2).
Qed.

Lemma bind_ended_clean {A B} (m : Op A) (k : A → Op B) w :
  ended_clean w (m w) →
  (∀ a w1, m w = Ret a w1 → ended_clean w1 (k a w1)) →
  ended_clean w ((do x <- m; k x) w).
Proof.
  intros (Hrun & Hfree & Hopen) Hk. unfold bind.
  destruct (m w) as [a w1|e w1|w1] eqn:Hm.
  - destruct (Hk a w1 eq_refl) as (Hrun' & Hfree' & Hopen').
    simpl in Hopen. split; [exact Hrun'|]. split; [exact Hfree'|]. congruence.
  - split; [discriminate|]. split; assumption.
  - now destruct (Hrun w1).
Qed.

Lemma for_each_ended_clean {A B} (body : A → Op B) (xs : list A) :
  (∀ x w, db_lock w = false → ended_clean w (body x w)) →
  ∀ w, db_lock w = false → ended_clean w (for_each xs body w).
Proof.
  intros Hbody. induction xs as [|x rest IH]; intros w Hfree; simpl.
  - split; [discriminate|]. split; [exact Hfree | reflexivity].
  - apply bind_ended_clean; [now apply Hbody|].
    intros r w1 Hrun. apply IH.
    destruct (Hbody x w Hfree) as (_ & Hfree1 & _). now rewrite Hrun in Hfree1.
Qed.

Ltac quiet_statements :=
  intros ? ?;
  unfold bind, current_timestamp, execute, try_except_IntegrityError, ret, raise,
    Database.select_guild_config, Database.select_reaction_count,
    Database.upsert_user_reaction, Database.insert_admin_user, Database.delete_admin_user,
    Database.insert_banned_user, Database.delete_banned_user, Database.insert_ticket,
    Database.select_ticket, Database.update_tickets, Database.delete_tickets;
  repeat case_match; simplify_eq; cbn [world_of db_lock open_connections tick];
  (split; [discriminate|]); split; reflexivity.

Lemma datetime_now_ended_clean w : db_lock w = false → ended_clean w (datetime_now w).
Proof. intros Hfree. split; [discriminate|]. split; [exact Hfree | reflexivity]. Qed.

Lemma timedelta_ended_clean d w : db_lock w = false → ended_clean w (timedelta d w).
Proof.
  intros Hfree. unfold timedelta.
  destruct (decide _); (split; [discriminate|]); split; auto.
Qed.

Lemma timedelta_world d w delta w' : timedelta d w = Ret delta w' → w' = w.
Proof. unfold timedelta. destruct (decide _); [|discriminate]. now intros [= _ <-]. Qed.

Lemma datetime_sub_ended_clean t delta w :
  db_lock w = false → ended_clean w (datetime_sub t delta w).
Proof.
  intros Hfree. unfold datetime_sub.
  destruct (decide _); (split; [discriminate|]); split; auto.
Qed.

Lemma datetime_sub_world t delta w r w' : datetime_sub t delta w = Ret r w' → w' = w.
Proof. unfold datetime_sub. destruct (decide _); [|discriminate]. now intros [= _ <-]. Qed.

Lemma update_ticket_ended_clean ticket_id updates w :
  db_lock w = false → ended_clean w (Database.update_ticket ticket_id updates w).
Proof.
  intros Hfree. destruct updates as [|a rest].
  - split; [discriminate|]. split; [exact Hfree | reflexivity].
  - apply guard_ended_clean; [exact Hfree | quiet_statements].
Qed.

Lemma close_ticket_ended_clean ticket_id closed_by response responder w :
  db_lock w = false →
  ended_clean w (Database.close_ticket ticket_id closed_by response responder w).
Proof.
  intros Hfree. unfold Database.close_ticket.
  apply bind_ended_clean; [now apply datetime_now_ended_clean|].
  intros closed_at w1 Hnow. injection Hnow as _ <-.
  destruct (truthy_str responder).
  - apply bind_ended_clean; [now apply datetime_now_ended_clean|].
    intros responded_at w2 Hnow. injection Hnow as _ <-.
    now apply update_ticket_ended_clean.
  - now apply update_ticket_ended_clean.
Qed.

Lemma delete_ticket_ended_clean ticket_id w :
  db_lock w = false → ended_clean w (Database.delete_ticket ticket_id w).
Proof. intros Hfree. apply guard_ended_clean; [exact Hfree | quiet_statements]. Qed.

Lemma delete_each_ended_clean ids :
  ∀ count w, db_lock w = false → ended_clean w (Tickets.delete_each ids count w).
Proof.
  induction ids as [|id rest IH]; intros count w Hfree; simpl.
  - split; [discriminate|]. split; [exact Hfree | reflexivity].
  - apply bind_ended_clean; [now apply delete_ticket_ended_clean|].
    intros deleted w1 Hrun. apply IH.
    destruct (delete_ticket_ended_clean id w Hfree) as (_ & Hfree1 & _).
    unfold Tickets.db_delete_ticket in Hrun. now rewrite Hrun in Hfree1.
Qed.

Lemma lock_after {A} (m : Op A) w a w1 :
  ended_clean w (m w) → m w = Ret a w1 → db_lock w1 = false.
Proof. intros (_ & Hfree & _) Hrun. now rewrite Hrun in Hfree. Qed.

Lemma save_reactions_ended_clean int data :
  ∀ w, db_lock w = false → ended_clean w (Config.save_reactions int data w).
Proof.
  assert (Hint : ∀ s w, db_lock w = false → ended_clean w (Config.call_int int s w)).
  { intros s w Hfree. unfold Config.call_int.
    destruct (int s); (split; [discriminate|]); split; auto. }
  assert (Hget : ∀ g u w, db_lock w = false →
            ended_clean w (Database.get_user_reactions g u w)).
  { intros g u w Hfree. apply guard_ended_clean; [exact Hfree | quiet_statements]. }
  assert (Hinc : ∀ g u n w, db_lock w = false →
            ended_clean w (Database.increment_user_reactions g u n w)).
  { intros g u n w Hfree. apply guard_ended_clean; [exact Hfree | quiet_statements]. }
  assert (Hguild : ∀ guild_id users w, db_lock w = false →
            ended_clean w (Config.save_guild_reactions int guild_id users w)).
  { intros guild_id users. induction users as [|[user_id count] rest IH]; intros w Hfree; simpl.
    - split; [discriminate|]. split; [exact Hfree | reflexivity].
    - apply bind_ended_clean; [now apply Hint|]. intros g w1 Hrun1.
      pose proof (lock_after _ _ _ _ (Hint _ _ Hfree) Hrun1) as Hfree1.
      apply bind_ended_clean; [now apply Hint|]. intros u w2 Hrun2.
      pose proof (lock_after _ _ _ _ (Hint _ _ Hfree1) Hrun2) as Hfree2.
      apply bind_ended_clean; [now apply Hget|]. intros current w3 Hrun3.
      pose proof (lock_after _ _ _ _ (Hget _ _ _ Hfree2) Hrun3) as Hfree3.
      apply bind_ended_clean.
      + destruct (decide (count - current ≠ 0)).
        * apply bind_ended_clean; [now apply Hint|]. intros g' w4 Hrun4.
          pose proof (lock_after _ _ _ _ (Hint _ _ Hfree3) Hrun4) as Hfree4.
          apply bind_ended_clean; [now apply Hint|]. intros u' w5 Hrun5.
          pose proof (lock_after _ _ _ _ (Hint _ _ Hfree4) Hrun5) as Hfree5.
          now apply Hinc.
        * split; [discriminate|]. split; [exact Hfree3 | reflexivity].
      + intros r w6 Hrun6. apply IH.
        destruct (decide (count - current ≠ 0)).
        * eapply (lock_after (do g' <- Config.call_int int guild_id;
                              do u' <- Config.call_int int user_id;
                              Database.increment_user_reactions g' u' (count - current)));
            [|exact Hrun6].
          apply bind_ended_clean; [now apply Hint|]. intros g' w4 Hrun4.
          pose proof (lock_after _ _ _ _ (Hint _ _ Hfree3) Hrun4) as Hfree4.
          apply bind_ended_clean; [now apply Hint|]. intros u' w5 Hrun5.
          pose proof (lock_after _ _ _ _ (Hint _ _ Hfree4) Hrun5) as Hfree5.
          now apply Hinc.
        * injection Hrun6 as _ <-. exact Hfree3. }
  induction data as [|[guild_id users] rest IH]; intros w Hfree; simpl.
  - split; [discriminate|]. split; [exact Hfree | reflexivity].
  - apply bind_ended_clean; [now apply Hguild|]. intros r w1 Hrun. apply IH.
    exact (lock_after _ _ _ _ (Hguild _ _ _ Hfree) Hrun).
Qed.

(** X1.  Each of the operations listed, when started with the lock free,
    comes to an end, by returning or by raising: it never blocks, and at its
    end the lock is free again and every connection it opened is closed.
    The list has the operations of database.py on guild configurations
    (the two reads), reactions, admins, banned users and tickets, and the
    helpers [create_ticket] and [cleanup_old_tickets] of tickets.py,
    [save_authorized_users] of auth.py and [save_reactions] of config.py.
    It has not [set_guild_config], which blocks, nor [init_database],
    [get_global_setting] and [set_global_setting], which are outside this
    development. *)
Theorem operations_end_clean (w : World) :
  db_lock w = false →
  (∀ g, ended_clean w (Database.get_guild_config g w)) ∧
  ended_clean w (Database.get_all_guild_configs w) ∧
  (∀ g u, ended_clean w (Database.get_user_reactions g u w)) ∧
  (∀ g u n, ended_clean w (Database.increment_user_reactions g u n w)) ∧
  (∀ g, ended_clean w (Database.get_guild_reactions g w)) ∧
  ended_clean w (Database.get_all_reactions w) ∧
  (∀ u, ended_clean w (Database.is_admin_user u w)) ∧
  (∀ u, ended_clean w (Database.add_admin_user u w)) ∧
  (∀ u, ended_clean w (Database.remove_admin_user u w)) ∧
  ended_clean w (Database.get_admin_users w) ∧
  (∀ u, ended_clean w (Database.is_banned_user u w)) ∧
  (∀ u why by_, ended_clean w (Database.ban_user u why by_ w)) ∧
  (∀ u, ended_clean w (Database.unban_user u w)) ∧
  ended_clean w (Database.get_banned_users w) ∧
  (∀ id uid uname gid gname msg,
     ended_clean w (Database.create_ticket id uid uname gid gname msg w)) ∧
  (∀ id, ended_clean w (Database.get_ticket id w)) ∧
  (∀ id ups, ended_clean w (Database.update_ticket id ups w)) ∧
  (∀ id by_ response responder,
     ended_clean w (Database.close_ticket id by_ response responder w)) ∧
  (∀ id, ended_clean w (Database.delete_ticket id w)) ∧
  (∀ u sf, ended_clean w (Database.get_user_tickets u sf w)) ∧
  (∀ sf, ended_clean w (Database.get_all_tickets sf w)) ∧
  ended_clean w (Database.get_open_tickets w) ∧
  (∀ g sf, ended_clean w (Database.get_guild_tickets g sf w)) ∧
  (∀ uid uname gid gname msg, ended_clean w (Tickets.create_ticket uid uname gid gname msg w)) ∧
  (∀ days_old, ended_clean w (Tickets.cleanup_old_tickets days_old w)) ∧
  (∀ auth_data, ended_clean w (Auth.save_authorized_users auth_data w)) ∧
  (∀ int data, ended_clean w (Config.save_reactions int data w)).
Proof.
  intros Hfree.
  assert (Hguard : ∀ A (fn : Conn → Op (A * Conn)) w0,
            db_lock w0 = false → quiet fn → ended_clean w0 (get_db_connection fn w0))
    by (intros; now apply guard_ended_clean).
  do 16 (split; [intros; apply Hguard; [exact Hfree | quiet_statements]|]).
  split; [intros; now apply update_ticket_ended_clean|].
  split; [intros; now apply close_ticket_ended_clean|].
  do 5 (split; [intros; apply Hguard; [exact Hfree | quiet_statements]|]).
  split; [|split; [|split]].
  - intros uid uname gid gname msg. unfold Tickets.create_ticket, uuid4.
    apply bind_ended_clean; [split; [discriminate|]; split; [exact Hfree | reflexivity]|].
    intros u w1 Hrun. injection Hrun as _ <-.
    assert (Hcreate : ∀ id, ended_clean (draw w)
              (Tickets.db_create_ticket id uid uname gid gname msg (draw w)))
      by (intros id; apply Hguard; [exact Hfree | quiet_statements]).
    apply bind_ended_clean; [apply Hcreate|].
    intros r w2 Hrun. split; [discriminate|]. split; [|reflexivity].
    exact (lock_after _ _ _ _ (Hcreate _) Hrun).
  - intros days_old. unfold Tickets.cleanup_old_tickets.
    assert (Hall : ended_clean w (Tickets.db_get_all_tickets None w))
      by (apply Hguard; [exact Hfree | quiet_statements]).
    apply bind_ended_clean; [exact Hall|].
    intros all w1 Hrun1. pose proof (lock_after _ _ _ _ Hall Hrun1) as Hfree1.
    apply bind_ended_clean; [now apply datetime_now_ended_clean|].
    intros now w2 Hnow. injection Hnow as _ <-.
    assert (Hfree2 : db_lock (tick w1) = false) by exact Hfree1.
    apply bind_ended_clean; [now apply timedelta_ended_clean|].
    intros delta w3 Hdelta. apply timedelta_world in Hdelta as ->.
    apply bind_ended_clean; [now apply datetime_sub_ended_clean|].
    intros cutoff w4 Hsub. apply datetime_sub_world in Hsub as ->.
    now apply delete_each_ended_clean.
  - intros auth_data. destruct auth_data as [admins|]; simpl;
      [|split; [discriminate|]; split; [exact Hfree | reflexivity]].
    assert (Hlist : ended_clean w (Auth.db_get_admin_users w))
      by (apply Hguard; [exact Hfree | quiet_statements]).
    apply bind_ended_clean; [exact Hlist|].
    intros current w1 Hrun1. pose proof (lock_after _ _ _ _ Hlist Hrun1) as Hfree1.
    assert (Hadd : ∀ x w0, db_lock w0 = false → ended_clean w0 (Auth.db_add_admin_user x w0))
      by (intros; apply Hguard; [assumption | quiet_statements]).
    assert (Hdel : ∀ x w0, db_lock w0 = false → ended_clean w0 (Auth.db_remove_admin_user x w0))
      by (intros; apply Hguard; [assumption | quiet_statements]).
    pose proof (for_each_ended_clean Auth.db_add_admin_user
                  (elements (list_to_set admins ∖ list_to_set current : gset Z)) Hadd w1 Hfree1)
      as Hadds.
    apply bind_ended_clean; [exact Hadds|].
    intros r w2 Hrun2. apply for_each_ended_clean; [exact Hdel|].
    exact (lock_after _ _ _ _ Hadds Hrun2).
  - intros int data. now apply save_reactions_ended_clean.
Qed.

Lemma operations_end_clean_witness :
  db_lock (on_day500 one_ticket_db) = false ∧
  db_lock (world_of (Tickets.cleanup_old_tickets 30 (on_day500 one_ticket_db))) = false ∧
  open_connections (world_of (Database.ban_user 5 None None (on_day500 one_ticket_db))) = 0%nat.
Proof.
  split; [reflexivity|].
  pose proof (operations_end_clean (on_day500 one_ticket_db) eq_refl) as Hall.
  split.
  - do 24 apply proj2 in Hall. apply proj1 in Hall.
    destruct (Hall 30) as (_ & Hfree & _). exact Hfree.
  - do 11 apply proj2 in Hall. apply proj1 in Hall.
    destruct (Hall 5 None None) as (_ & _ & Hopen). exact Hopen.
Defined.

(** ** Listing a table *)

Lemma scan_stored {V} (table : gmap Z V) k v :
  (k, v) ∈ Database.scan table ↔ table !! k = Some v.
Proof. unfold Database.scan. rewrite merge_sort_Permutation. apply elem_of_map_to_list. Qed.

Lemma scan_keys_NoDup {V} (table : gmap Z V) : NoDup ((Database.scan table).*1).
Proof. unfold Database.scan. rewrite merge_sort_Permutation. apply NoDup_fst_map_to_list. Qed.

Lemma scan_keys {V} (table : gmap Z V) k :
  k ∈ (Database.scan table).*1 ↔ is_Some (table !! k).
Proof.
  rewrite list_elem_of_fmap. split.
  - intros ([k' v] & -> & Hin). apply scan_stored in Hin. eauto.
  - intros [v Hv]. exists (k, v). split; [reflexivity|]. now apply scan_stored.
Qed.

(** ** The admin list *)

Lemma get_admin_users_spec w :
  db_lock w = false →
  ∃ w', Database.get_admin_users w = Ret ((Database.scan (admin_users (db_file w))).*1) w' ∧
        db_lock w' = false ∧ db_file w' = db_file w.
Proof. intros Hfree. unfold Database.get_admin_users. enter_guard Hfree. eauto. Qed.

(** X2.  [get_admin_users], with the lock free, returns the stored admins,
    each once, and changes nothing; [is_admin_user] answers [True] exactly
    for the members of that list; [load_authorized_users] returns the same
    list under its "admin_users" key. *)
Theorem get_admin_users_lists_admins (w : World) :
  db_lock w = false →
  ∃ admins w',
    Database.get_admin_users w = Ret admins w' ∧
    db_file w' = db_file w ∧
    NoDup admins ∧
    (∀ u, u ∈ admins ↔ is_Some (admin_users (db_file w) !! u)) ∧
    (∀ u, ∃ w'', Database.is_admin_user u w = Ret (bool_decide (u ∈ admins)) w'') ∧
    (∃ w'', Auth.load_authorized_users w = Ret (Some admins) w'').
Proof.
  intros Hfree. destruct (get_admin_users_spec w Hfree) as (w' & Hrun & _ & Hdb).
  exists ((Database.scan (admin_users (db_file w))).*1), w'.
  split; [exact Hrun|]. split; [exact Hdb|]. split; [apply scan_keys_NoDup|].
  split; [intros u; apply scan_keys|]. split.
  - intros u. destruct (is_admin_user_spec u w Hfree) as (w'' & Hask & _).
    exists w''. rewrite Hask. f_equal. apply bool_decide_ext. symmetry. apply scan_keys.
  - exists w'. unfold Auth.load_authorized_users, Auth.db_get_admin_users.
    now rewrite (bind_ret _ _ _ _ _ Hrun).
Qed.

Lemma get_admin_users_lists_admins_witness :
  db_lock (idle empty_db) = false ∧
  ∃ w', Database.get_admin_users (idle empty_db) = Ret [] w'.
Proof.
  split; [reflexivity|].
  destruct (get_admin_users_lists_admins (idle empty_db) eq_refl)
    as (admins & w' & Hrun & _ & _ & Hin & _).
  exists w'. rewrite Hrun. f_equal.
  destruct admins as [|u rest]; [reflexivity|].
  destruct (proj1 (Hin u)) as [row Hrow]; [left|]. discriminate Hrow.
Defined.

(** X3.  [remove_admin_user], with the lock free, returns [True] exactly
    when the user was an admin; afterwards the user is not an admin
    ([is_admin_user] returns [False], a second removal returns [False]),
    and every other admin and every other table is as before. *)
Theorem remove_admin_user_result (u : Z) (w : World) :
  db_lock w = false →
  ∃ w',
    Database.remove_admin_user u w
      = Ret (bool_decide (is_Some (admin_users (db_file w) !! u))) w' ∧
    admin_users (db_file w') !! u = None ∧
    (∀ v, v ≠ u → admin_users (db_file w') !! v = admin_users (db_file w) !! v) ∧
    (guild_config (db_file w'), user_reactions (db_file w'),
     banned_users (db_file w'), tickets (db_file w'))
      = (guild_config (db_file w), user_reactions (db_file w),
         banned_users (db_file w), tickets (db_file w)) ∧
    (∃ w'', Database.is_admin_user u w' = Ret false w'') ∧
    (∃ w'', Database.remove_admin_user u w' = Ret false w'').
Proof.
  intros Hfree. destruct (remove_admin_user_spec u w Hfree) as (w' & Hrun & Hfree' & Hdb).
  assert (Hgone : admin_users (db_file w') !! u = None)
    by (rewrite Hdb; simpl; apply lookup_delete_eq).
  exists w'. split; [exact Hrun|]. split; [exact Hgone|]. split; [|split; [|split]].
  - intros v Hne. rewrite Hdb. simpl. now rewrite lookup_delete_ne.
  - now rewrite Hdb.
  - destruct (is_admin_user_spec u w' Hfree') as (w'' & Hask & _).
    exists w''. rewrite Hask, Hgone. reflexivity.
  - destruct (remove_admin_user_spec u w' Hfree') as (w'' & Hagain & _).
    exists w''. rewrite Hagain, Hgone. reflexivity.
Qed.

Lemma remove_admin_user_result_witness :
  db_lock (idle empty_db) = false ∧
  ∃ w', Database.remove_admin_user 5 (idle empty_db) = Ret false w'.
Proof.
  split; [reflexivity|].
  destruct (remove_admin_user_result 5 (idle empty_db) eq_refl) as (w' & Hrun & _).
  exists w'. exact Hrun.
Defined.

Lemma add_each_admin xs :
  ∀ w, db_lock w = false →
  ∃ w', for_each xs Auth.db_add_admin_user w = Ret tt w' ∧
        db_lock w' = false ∧
        (∀ u, is_Some (admin_users (db_file w') !! u)
              ↔ is_Some (admin_users (db_file w) !! u) ∨ u ∈ xs) ∧
        (∀ u row, admin_users (db_file w) !! u = Some row →
                  admin_users (db_file w') !! u = Some row) ∧
        (guild_config (db_file w'), user_reactions (db_file w'),
         banned_users (db_file w'), tickets (db_file w'))
          = (guild_config (db_file w), user_reactions (db_file w),
             banned_users (db_file w), tickets (db_file w)).
Proof.
  induction xs as [|x rest IH]; intros w Hfree; simpl.
  - exists w. repeat split; auto. intros [?|Hin]; [assumption | inversion Hin].
  - destruct (add_admin_user_spec w Hfree x) as (w1 & Hrun1 & Hfree1 & Hdb1).
    destruct (IH w1 Hfree1) as (w' & Hrun & Hfree' & Hdom & Hkeep & Hrest).
    exists w'. unfold Auth.db_add_admin_user in *.
    rewrite (bind_ret _ _ _ _ _ Hrun1), Hrun.
    split; [reflexivity|]. split; [exact Hfree'|].
    assert (Hstep : ∀ u, is_Some (admin_users (db_file w1) !! u)
                         ↔ is_Some (admin_users (db_file w) !! u) ∨ u = x).
    { intros u. rewrite Hdb1. destruct (admin_users (db_file w) !! x) as [row|] eqn:Hx.
      - split; [now left|]. intros [?| ->]; [assumption|]. rewrite Hx. eauto.
      - simpl. rewrite lookup_insert_is_Some. destruct (decide (x = u)) as [->|Hne].
        + split; [now right | now left].
        + split; [intros [?|[_ ?]]; [congruence | now left] | intros [?|?]; [|congruence]].
          right. split; assumption. }
    split; [|split].
    + intros u. rewrite Hdom, Hstep, elem_of_cons. tauto.
    + intros u row Hrow. apply Hkeep. rewrite Hdb1.
      destruct (admin_users (db_file w) !! x) as [row'|] eqn:Hx; [exact Hrow|].
      simpl. rewrite lookup_insert_ne; [exact Hrow|]. intros ->. congruence.
    + rewrite Hrest, Hdb1. now destruct (admin_users (db_file w) !! x).
Qed.

Lemma remove_each_admin xs :
  ∀ w, db_lock w = false →
  ∃ w', for_each xs Auth.db_remove_admin_user w = Ret tt w' ∧
        db_lock w' = false ∧
        (∀ u, admin_users (db_file w') !! u
              = if bool_decide (u ∈ xs) then None else admin_users (db_file w) !! u) ∧
        (guild_config (db_file w'), user_reactions (db_file w'),
         banned_users (db_file w'), tickets (db_file w'))
          = (guild_config (db_file w), user_reactions (db_file w),
             banned_users (db_file w), tickets (db_file w)).
Proof.
  induction xs as [|x rest IH]; intros w Hfree; simpl.
  - exists w. repeat split; auto.
  - destruct (remove_admin_user_spec x w Hfree) as (w1 & Hrun1 & Hfree1 & Hdb1).
    destruct (IH w1 Hfree1) as (w' & Hrun & Hfree' & Hlook & Hrest).
    exists w'. unfold Auth.db_remove_admin_user in *.
    rewrite (bind_ret _ _ _ _ _ Hrun1), Hrun.
    split; [reflexivity|]. split; [exact Hfree'|]. split.
    + intros u. rewrite Hlook, Hdb1. simpl.
      destruct (decide (u = x)) as [->|Hne].
      * rewrite lookup_delete_eq, (bool_decide_eq_true_2 (x ∈ x :: rest)) by left.
        now destruct (bool_decide (x ∈ rest)).
      * rewrite lookup_delete_ne by congruence.
        destruct (decide (u ∈ rest)) as [Hin|Hout].
        -- rewrite !bool_decide_eq_true_2; [reflexivity | now right | exact Hin].
        -- rewrite !bool_decide_eq_false_2; [reflexivity | | exact Hout].
           intros Hin. apply elem_of_cons in Hin as [?|?]; contradiction.
    + rewrite Hrest, Hdb1. reflexivity.
Qed.

(** X4.  [save_authorized_users], given a dict with an "admin_users" list and
    started with the lock free, returns with the stored admins being exactly
    the users of the list: the missing ones added, the others removed; an
    admin who stays keeps the row it had; the other tables are as before.
    Given a dict without the key it does nothing at all. *)
Theorem save_authorized_users_syncs (admins : list Z) (w : World) :
  db_lock w = false →
  Auth.save_authorized_users None w = Ret tt w ∧
  ∃ w',
    Auth.save_authorized_users (Some admins) w = Ret tt w' ∧
    db_lock w' = false ∧
    (∀ u, is_Some (admin_users (db_file w') !! u) ↔ u ∈ admins) ∧
    (∀ u row, admin_users (db_file w) !! u = Some row → u ∈ admins →
              admin_users (db_file w') !! u = Some row) ∧
    (guild_config (db_file w'), user_reactions (db_file w'),
     banned_users (db_file w'), tickets (db_file w'))
      = (guild_config (db_file w), user_reactions (db_file w),
         banned_users (db_file w), tickets (db_file w)).
Proof.
  intros Hfree. split; [reflexivity|].
  destruct (get_admin_users_spec w Hfree) as (w1 & Hrun1 & Hfree1 & Hdb1).
  set (current := (Database.scan (admin_users (db_file w))).*1) in *.
  set (to_add := elements (list_to_set admins ∖ list_to_set current : gset Z)).
  set (to_remove := elements (list_to_set current ∖ list_to_set admins : gset Z)).
  destruct (add_each_admin to_add w1 Hfree1) as (w2 & Hrun2 & Hfree2 & Hdom2 & Hkeep2 & Hrest2).
  destruct (remove_each_admin to_remove w2 Hfree2) as (w3 & Hrun3 & Hfree3 & Hlook3 & Hrest3).
  assert (Hcurrent : ∀ u, u ∈ current ↔ is_Some (admin_users (db_file w) !! u))
    by (intros u; apply scan_keys).
  assert (Hadd : ∀ u, u ∈ to_add ↔ u ∈ admins ∧ u ∉ current).
  { intros u. unfold to_add.
    rewrite elem_of_elements, elem_of_difference, !elem_of_list_to_set. tauto. }
  assert (Hremove : ∀ u, u ∈ to_remove ↔ u ∈ current ∧ u ∉ admins).
  { intros u. unfold to_remove.
    rewrite elem_of_elements, elem_of_difference, !elem_of_list_to_set. tauto. }
  exists w3. split; [|split; [exact Hfree3|split; [|split]]].
  - unfold Auth.save_authorized_users, Auth.db_get_admin_users.
    rewrite (bind_ret _ _ _ _ _ Hrun1). fold current. fold to_add. fold to_remove.
    now rewrite (bind_ret _ _ _ _ _ Hrun2).
  - intros u. rewrite Hlook3. rewrite Hdb1 in Hdom2.
    destruct (decide (u ∈ to_remove)) as [Hin|Hout].
    + rewrite bool_decide_eq_true_2 by exact Hin. apply Hremove in Hin as [? ?].
      split; [intros [? ?]; discriminate | contradiction].
    + rewrite bool_decide_eq_false_2 by exact Hout.
      rewrite Hdom2, <- Hcurrent, Hadd. rewrite Hremove in Hout.
      destruct (decide (u ∈ current)); destruct (decide (u ∈ admins)); tauto.
  - intros u row Hrow Hin. rewrite Hlook3.
    rewrite bool_decide_eq_false_2 by (rewrite Hremove; tauto).
    apply Hkeep2. now rewrite Hdb1.
  - now rewrite Hrest3, Hrest2, Hdb1.
Qed.

Lemma save_authorized_users_syncs_witness :
  db_lock (idle empty_db) = false ∧
  ∃ w', Auth.save_authorized_users (Some [3; 5]) (idle empty_db) = Ret tt w' ∧
        is_Some (admin_users (db_file w') !! 3) ∧
        admin_users (db_file w') !! 4 = None.
Proof.
  split; [reflexivity|].
  destruct (save_authorized_users_syncs [3; 5] (idle empty_db) eq_refl)
    as (_ & w' & Hrun & _ & Hdom & _).
  exists w'. split; [exact Hrun|]. split.
  - apply Hdom. left.
  - destruct (admin_users (db_file w') !! 4) as [row|] eqn:Hrow; [|reflexivity].
    assert (Hin : 4 ∈ [3; 5]) by (apply Hdom; eauto).
    apply elem_of_cons in Hin as [Heq|Hin]; [discriminate|].
    apply elem_of_cons in Hin as [Heq|Hin]; [discriminate | inversion Hin].
Defined.

(** ** The ban list *)

Lemma is_banned_user_spec u w :
  db_lock w = false →
  ∃ w', Database.is_banned_user u w
          = Ret (bool_decide (is_Some (banned_users (db_file w) !! u))) w' ∧
        db_lock w' = false ∧ db_file w' = db_file w.
Proof. intros Hfree. unfold Database.is_banned_user. enter_guard Hfree. eauto. Qed.

Lemma unban_user_spec u w :
  db_lock w = false →
  ∃ w', Database.unban_user u w
          = Ret (bool_decide (is_Some (banned_users (db_file w) !! u))) w' ∧
        db_lock w' = false ∧ db_file w' = with_banned_users (delete u) (db_file w).
Proof.
  intros Hfree. unfold Database.unban_user, Database.delete_banned_user.
  enter_guard Hfree. destruct (banned_users (db_file w) !! u); simpl; eauto.
Qed.

Lemma get_banned_users_spec w :
  db_lock w = false →
  ∃ w', Database.get_banned_users w = Ret (Database.scan (banned_users (db_file w))) w' ∧
        db_lock w' = false ∧ db_file w' = db_file w.
Proof. intros Hfree. unfold Database.get_banned_users. enter_guard Hfree. eauto. Qed.

(** X5.  [ban_user], with the lock free, returns [True] for a user who is
    not banned and stores the given reason and banning admin with the time
    of the call; for a user who is banned already it returns [False] and the
    reason, admin and time of the first ban stay.  Either way the user is
    banned afterwards: [is_banned_user] returns [True] and
    [get_banned_users] lists the user, once, with the stored row; the bans
    of other users are untouched. *)
Theorem ban_user_records_first_ban (u : Z) (why : option string) (by_ : option Z)
    (w : World) :
  db_lock w = false →
  ∃ w' row,
    Database.ban_user u why by_ w
      = Ret (bool_decide (banned_users (db_file w) !! u = None)) w' ∧
    banned_users (db_file w') !! u = Some row ∧
    row = match banned_users (db_file w) !! u with
          | Some first => first
          | None => mkBannedUser why by_ (utc_clock w (ticks w))
          end ∧
    (∀ v, v ≠ u → banned_users (db_file w') !! v = banned_users (db_file w) !! v) ∧
    (∃ w'', Database.is_banned_user u w' = Ret true w'') ∧
    (∃ listed w'', Database.get_banned_users w' = Ret listed w'' ∧
                   (u, row) ∈ listed ∧ NoDup (listed.*1)).
Proof.
  intros Hfree. destruct (ban_user_spec w Hfree u why by_) as (w' & Hrun & Hfree' & Hdb).
  set (row := match banned_users (db_file w) !! u with
              | Some first => first
              | None => mkBannedUser why by_ (utc_clock w (ticks w))
              end).
  assert (Hrow : banned_users (db_file w') !! u = Some row).
  { rewrite Hdb. unfold row. destruct (banned_users (db_file w) !! u) eqn:Hold; simpl.
    - exact Hold.
    - apply lookup_insert_eq. }
  exists w', row. split; [exact Hrun|]. split; [exact Hrow|]. split; [reflexivity|].
  split; [|split].
  - intros v Hne. rewrite Hdb. destruct (banned_users (db_file w) !! u); simpl; [reflexivity|].
    now rewrite lookup_insert_ne.
  - destruct (is_banned_user_spec u w' Hfree') as (w'' & Hask & _).
    exists w''. rewrite Hask, Hrow. reflexivity.
  - destruct (get_banned_users_spec w' Hfree') as (w'' & Hlist & _).
    eexists _, w''. split; [exact Hlist|]. split; [now apply scan_stored|].
    apply scan_keys_NoDup.
Qed.

Lemma ban_user_records_first_ban_witness :
  db_lock (idle empty_db) = false ∧
  ∃ w', Database.ban_user 5 (Some "spam"%string) (Some 1) (idle empty_db) = Ret true w' ∧
        banned_users (db_file w') !! 5 = Some (mkBannedUser (Some "spam"%string) (Some 1) 0).
Proof.
  split; [reflexivity|].
  destruct (ban_user_records_first_ban 5 (Some "spam"%string) (Some 1) (idle empty_db) eq_refl)
    as (w' & row & Hrun & Hrow & -> & _).
  exists w'. split; [exact Hrun | exact Hrow].
Defined.

(** X6.  [unban_user], with the lock free, returns [True] exactly when the
    user was banned; afterwards the user is not banned ([is_banned_user]
    returns [False]), the bans of other users are untouched, and a new
    [ban_user] of the same user succeeds and stores its own reason. *)
Theorem unban_user_result (u : Z) (w : World) :
  db_lock w = false →
  ∃ w',
    Database.unban_user u w
      = Ret (bool_decide (is_Some (banned_users (db_file w) !! u))) w' ∧
    banned_users (db_file w') !! u = None ∧
    (∀ v, v ≠ u → banned_users (db_file w') !! v = banned_users (db_file w) !! v) ∧
    (∃ w'', Database.is_banned_user u w' = Ret false w'') ∧
    (∀ why by_, ∃ w'',
        Database.ban_user u why by_ w' = Ret true w'' ∧
        reason <$> banned_users (db_file w'') !! u = Some why).
Proof.
  intros Hfree. destruct (unban_user_spec u w Hfree) as (w' & Hrun & Hfree' & Hdb).
  assert (Hgone : banned_users (db_file w') !! u = None)
    by (rewrite Hdb; simpl; apply lookup_delete_eq).
  exists w'. split; [exact Hrun|]. split; [exact Hgone|]. split; [|split].
  - intros v Hne. rewrite Hdb. simpl. now rewrite lookup_delete_ne.
  - destruct (is_banned_user_spec u w' Hfree') as (w'' & Hask & _).
    exists w''. rewrite Hask, Hgone. reflexivity.
  - intros why by_. destruct (ban_user_spec w' Hfree' u why by_) as (w'' & Hban & _ & Hdb'').
    exists w''. rewrite Hban, Hdb'', Hgone. simpl. rewrite lookup_insert_eq.
    split; reflexivity.
Qed.

Lemma unban_user_result_witness :
  db_lock (idle empty_db) = false ∧
  ∃ w', Database.unban_user 5 (idle empty_db) = Ret false w'.
Proof.
  split; [reflexivity|].
  destruct (unban_user_result 5 (idle empty_db) eq_refl) as (w' & Hrun & _).
  exists w'. exact Hrun.
Defined.

(** ** Deleting and creating tickets *)

(** X7.  [delete_ticket], with the lock free, returns [True] exactly when a
    ticket has the id; afterwards no ticket has it ([get_ticket] returns
    [None], a second deletion returns [False]), and every other ticket and
    every other table is as before.  [tickets.delete_ticket] is the same
    operation. *)
Theorem delete_ticket_result (ticket_id : string) (w : World) :
  db_lock w = false →
  Tickets.delete_ticket ticket_id w = Database.delete_ticket ticket_id w ∧
  ∃ w',
    Database.delete_ticket ticket_id w
      = Ret (bool_decide (is_Some (tickets (db_file w) !! ticket_id))) w' ∧
    tickets (db_file w') !! ticket_id = None ∧
    (∀ other, other ≠ ticket_id →
       tickets (db_file w') !! other = tickets (db_file w) !! other) ∧
    (guild_config (db_file w'), user_reactions (db_file w'),
     admin_users (db_file w'), banned_users (db_file w'))
      = (guild_config (db_file w), user_reactions (db_file w),
         admin_users (db_file w), banned_users (db_file w)) ∧
    (∃ w'', Database.get_ticket ticket_id w' = Ret None w'') ∧
    (∃ w'', Database.delete_ticket ticket_id w' = Ret false w'').
Proof.
  intros Hfree. split; [reflexivity|].
  destruct (delete_ticket_spec ticket_id w Hfree) as (w' & Hrun & Hfree' & Hdb).
  assert (Hgone : tickets (db_file w') !! ticket_id = None)
    by (rewrite Hdb; simpl; apply lookup_delete_eq).
  exists w'. split; [exact Hrun|]. split; [exact Hgone|]. split; [|split; [|split]].
  - intros other Hne. rewrite Hdb. simpl. now rewrite lookup_delete_ne.
  - now rewrite Hdb.
  - destruct (get_ticket_spec ticket_id w' Hfree') as (w'' & Hget & _).
    exists w''. now rewrite Hget, Hgone.
  - destruct (delete_ticket_spec ticket_id w' Hfree') as (w'' & Hagain & _).
    exists w''. now rewrite Hagain, Hgone.
Qed.

Lemma delete_ticket_result_witness :
  db_lock (idle one_ticket_db) = false ∧
  ∃ w', Database.delete_ticket "abcd1234" (idle one_ticket_db) = Ret true w' ∧
        tickets (db_file w') !! "abcd1234"%string = None.
Proof.
  split; [reflexivity|].
  destruct (delete_ticket_result "abcd1234" (idle one_ticket_db) eq_refl)
    as (_ & w' & Hrun & Hgone & _).
  exists w'. split; [exact Hrun | exact Hgone].
Defined.




(** ** Closing and updating *)

(** X9.  [close_ticket] on an id that no ticket has, with the lock free,
    returns [False] and leaves the stored state as it was, whatever response
    and responder are given.  [tickets.close_ticket] is the same
    operation. *)
Theorem close_missing_ticket (ticket_id closed_by : string)
    (response responder : option string) (w : World) :
  db_lock w = false →
  tickets (db_file w) !! ticket_id = None →
  Tickets.close_ticket ticket_id closed_by response responder w
    = Database.close_ticket ticket_id closed_by response responder w ∧
  ∃ w', Database.close_ticket ticket_id closed_by response responder w = Ret false w' ∧
        db_file w' = db_file w ∧
        db_lock w' = false.
Proof.
  intros Hfree Hnone. split; [reflexivity|].
  assert (Hupd : ∀ w1 ups, ups ≠ [] → db_lock w1 = false → db_file w1 = db_file w →
            ∃ w', Database.update_ticket ticket_id ups w1 = Ret false w' ∧
                  db_file w' = db_file w ∧ db_lock w' = false).
  { intros w1 ups Hups Hfree1 Hdb1.
    destruct (update_ticket_spec ticket_id w1 Hfree1 ups Hups) as (w' & Hrun & Hfree' & Hdb').
    exists w'. rewrite Hrun, Hdb', Hdb1, Hnone. repeat split; auto.
    apply with_tickets_same. now apply alter_absent. }
  unfold Database.close_ticket, datetime_now. unfold bind at 1.
  destruct (truthy_str responder); [unfold bind at 1|]; destruct (truthy_str response);
    match goal with
    | |- context [Database.update_ticket _ ?ups ?w1] =>
        apply (Hupd w1 ups); [discriminate | exact Hfree | reflexivity]
    end.
Qed.

Lemma close_missing_ticket_witness :
  db_lock (idle one_ticket_db) = false ∧
  tickets (db_file (idle one_ticket_db)) !! "nosuchid"%string = None ∧
  ∃ w', Database.close_ticket "nosuchid" "admin" (Some "resp") (Some "root")
          (idle one_ticket_db) = Ret false w' ∧
        db_file w' = one_ticket_db.
Proof.
  split; [reflexivity|]. split; [reflexivity|].
  destruct (close_missing_ticket "nosuchid" "admin" (Some "resp"%string) (Some "root"%string)
              (idle one_ticket_db) eq_refl eq_refl) as (_ & w' & Hrun & Hdb & _).
  exists w'. split; [exact Hrun | exact Hdb].
Defined.

(** X10.  Two [update_ticket] calls on the same id, one after the other,
    each with at least one field, leave the stored state that one call with
    the fields of the first followed by the fields of the second leaves, and
    return the same value. *)
Theorem update_ticket_composes (ticket_id : string)
    (first second : list Database.ticket_assignment) (w : World) :
  db_lock w = false →
  first ≠ [] →
  second ≠ [] →
  ∃ b w1 w2 w12,
    Database.update_ticket ticket_id first w = Ret b w1 ∧
    Database.update_ticket ticket_id second w1 = Ret b w2 ∧
    Database.update_ticket ticket_id (first ++ second) w = Ret b w12 ∧
    db_file w2 = db_file w12.
Proof.
  intros Hfree Hfirst Hsecond.
  destruct (update_ticket_spec ticket_id w Hfree first Hfirst) as (w1 & Hrun1 & Hfree1 & Hdb1).
  destruct (update_ticket_spec ticket_id w1 Hfree1 second Hsecond)
    as (w2 & Hrun2 & Hfree2 & Hdb2).
  destruct (update_ticket_spec ticket_id w Hfree (first ++ second)) as (w12 & Hrun12 & _ & Hdb12).
  { destruct first; [congruence | discriminate]. }
  exists (bool_decide (is_Some (tickets (db_file w) !! ticket_id))), w1, w2, w12.
  split; [exact Hrun1|]. split; [|split; [exact Hrun12|]].
  - rewrite Hrun2, Hdb1. simpl. f_equal. apply bool_decide_ext.
    rewrite lookup_alter_eq. apply fmap_is_Some.
  - rewrite Hdb2, Hdb12, Hdb1. destruct (db_file w). unfold with_tickets. simpl. f_equal.
    rewrite alter_alter, decide_True by reflexivity.
    apply alter_ext. intros t _. simpl. now rewrite fold_left_app.
Qed.

Lemma update_ticket_composes_witness :
  db_lock (idle one_ticket_db) = false ∧
  ∃ w1 w2 w12,
    Database.update_ticket "abcd1234" [Database.set_message "a"] (idle one_ticket_db)
      = Ret true w1 ∧
    Database.update_ticket "abcd1234" [Database.set_status "closed"] w1 = Ret true w2 ∧
    Database.update_ticket "abcd1234" [Database.set_message "a"; Database.set_status "closed"]
      (idle one_ticket_db) = Ret true w12 ∧
    db_file w2 = db_file w12.
Proof.
  split; [reflexivity|].
  destruct (update_ticket_composes "abcd1234" [Database.set_message "a"%string]
              [Database.set_status "closed"%string] (idle one_ticket_db) eq_refl)
    as (b & w1 & w2 & w12 & Hrun1 & Hrun2 & Hrun12 & Hdb); [discriminate | discriminate |].
  assert (Hb : b = true).
  { destruct (update_ticket_spec "abcd1234" (idle one_ticket_db) eq_refl
                [Database.set_message "a"%string]) as (w' & Hrun' & _); [discriminate|].
    rewrite Hrun' in Hrun1. injection Hrun1 as <- _. reflexivity. }
  subst b. exists w1, w2, w12. auto.
Defined.

(** ** Listing tickets *)

Global Instance created_desc_total : Total Database.created_desc.
Proof. intros a b. unfold Database.created_desc. lia. Qed.
Global Instance created_desc_trans : Transitive Database.created_desc.
Proof. intros a b c. unfold Database.created_desc. lia. Qed.

Lemma StronglySorted_bool_filter {A} (R : relation A) (f : A → bool) l :
  StronglySorted R l → StronglySorted R (List.filter f l).
Proof.
  induction 1 as [|x l Hsorted IH Hall]; simpl; [constructor|].
  destruct (f x); [|exact IH].
  constructor; [exact IH|].
  rewrite Forall_forall in *. intros y Hy.
  apply list_elem_of_In, filter_In in Hy as [Hy _]. apply Hall. now apply list_elem_of_In.
Qed.

Lemma NoDup_keys_bool_filter {K V} (f : K * V → bool) (l : list (K * V)) :
  NoDup (l.*1) → NoDup ((List.filter f l).*1).
Proof.
  induction l as [|x l IH]; simpl; intros Hnd; [constructor|].
  apply NoDup_cons in Hnd as [Hfresh Hnd].
  destruct (f x); simpl; [|auto].
  apply NoDup_cons. split; [|auto].
  intros Hin. apply Hfresh.
  apply list_elem_of_fmap in Hin as (y & Hy & Hin). apply list_elem_of_fmap.
  exists y. split; [exact Hy|].
  apply list_elem_of_In, filter_In in Hin as [Hin _]. now apply list_elem_of_In.
Qed.

Lemma elem_of_bool_filter {A} (f : A → bool) (l : list A) x :
  x ∈ List.filter f l ↔ x ∈ l ∧ f x = true.
Proof. rewrite !list_elem_of_In. apply filter_In. Qed.

Lemma select_tickets_listing status_filter conn :
  NoDup ((Database.select_tickets status_filter conn).*1) ∧
  StronglySorted Database.created_desc (Database.select_tickets status_filter conn) ∧
  (∀ id t, (id, t) ∈ Database.select_tickets status_filter conn
           ↔ tickets conn !! id = Some t ∧
             (truthy_str status_filter = true → Some (status t) = status_filter)).
Proof.
  unfold Database.select_tickets.
  destruct (truthy_str status_filter); (split; [|split]).
  - apply NoDup_keys_bool_filter, sorted_rows_NoDup.
  - apply StronglySorted_bool_filter, StronglySorted_merge_sort; apply _.
  - intros id t. rewrite elem_of_bool_filter, sorted_rows_stored. simpl.
    rewrite bool_decide_eq_true. tauto.
  - apply sorted_rows_NoDup.
  - apply StronglySorted_merge_sort; apply _.
  - intros id t. rewrite sorted_rows_stored. split; [intros ?; split; [assumption|discriminate]|tauto].
Qed.






(** ** Reaction counters: repeated increments and the guild listing *)

Lemma increment_each g u deltas :
  ∀ w, db_lock w = false →
  ∃ w', for_each deltas (Database.increment_user_reactions g u) w = Ret tt w' ∧
        db_lock w' = false ∧
        stored_count g u (db_file w') = stored_count g u (db_file w) + foldr Z.add 0 deltas ∧
        (∀ k, k ≠ (g, u) → user_reactions (db_file w') !! k = user_reactions (db_file w) !! k).
Proof.
  induction deltas as [|d rest IH]; intros w Hfree; simpl.
  - exists w. repeat split; auto. lia.
  - destruct (increment_user_reactions_spec g u w Hfree d) as (w1 & Hrun1 & Hfree1 & Hcount1 & Hrest1).
    destruct (IH w1 Hfree1) as (w' & Hrun & Hfree' & Hcount & Hrest).
    exists w'. rewrite (bind_ret _ _ _ _ _ Hrun1), Hrun.
    split; [reflexivity|]. split; [exact Hfree'|]. split; [lia|].
    intros k Hk. now rewrite Hrest, Hrest1.
Qed.

Lemma counts_fit_last count deltas :
  int64 count → counts_fit count deltas → int64 (count + foldr Z.add 0 deltas).
Proof.
  revert count. induction deltas as [|d rest IH]; intros count Hcount Hfit; simpl.
  - now rewrite Z.add_0_r.
  - destruct Hfit as (_ & Hnext & Hrest). rewrite Z.add_assoc. now apply IH.
Qed.

(** X13.  Any number of [increment_user_reactions] calls for one pair, run
    one after the other with the lock free at the start, the stored count,
    the amounts and every count reached on the way being 64-bit integers:
    all the calls return, and [get_user_reactions] then returns what it
    returned before plus the sum of the amounts, which may be negative or
    zero, itself a 64-bit integer; another order of the calls, if the counts
    it goes through are 64-bit integers too, gives the same result; no other
    pair is touched. *)
Theorem increments_add_up (g u : Z) (deltas : list Z) (w : World) :
  db_lock w = false →
  int64 (stored_count g u (db_file w)) →
  counts_fit (stored_count g u (db_file w)) deltas →
  ∃ w0 w',
    Database.get_user_reactions g u w = Ret (stored_count g u (db_file w)) w0 ∧
    for_each deltas (Database.increment_user_reactions g u) w = Ret tt w' ∧
    (∃ w'', Database.get_user_reactions g u w'
            = Ret (stored_count g u (db_file w) + foldr Z.add 0 deltas) w'') ∧
    int64 (stored_count g u (db_file w) + foldr Z.add 0 deltas) ∧
    (∀ k, k ≠ (g, u) → user_reactions (db_file w') !! k = user_reactions (db_file w) !! k) ∧
    (∀ reordered, reordered ≡ₚ deltas →
       counts_fit (stored_count g u (db_file w)) reordered →
       ∃ v' v'',
         for_each reordered (Database.increment_user_reactions g u) w = Ret tt v' ∧
         Database.get_user_reactions g u v'
         = Ret (stored_count g u (db_file w) + foldr Z.add 0 deltas) v'').
Proof.
  intros Hfree Hstored Hfit.
  destruct (get_user_reactions_spec g u w Hfree) as (w0 & Hget & _).
  destruct (increment_each g u deltas w Hfree) as (w' & Hrun & Hfree' & Hcount & Hrest).
  destruct (get_user_reactions_spec g u w' Hfree') as (w'' & Hget' & _).
  exists w0, w'.
  split; [exact Hget|]. split; [exact Hrun|].
  split; [|split; [now apply counts_fit_last|split; [exact Hrest|]]].
  - exists w''. now rewrite Hget', Hcount.
  - intros reordered Hperm _.
    destruct (increment_each g u reordered w Hfree) as (v' & Hrun2 & Hfree2 & Hcount2 & _).
    destruct (get_user_reactions_spec g u v' Hfree2) as (v'' & Hget2 & _).
    exists v', v''. split; [exact Hrun2|]. rewrite Hget2, Hcount2. do 2 f_equal.
    clear -Hperm. induction Hperm; simpl; lia.
Qed.

Lemma increments_add_up_witness :
  db_lock (idle empty_db) = false ∧
  int64 (stored_count 1 2 (db_file (idle empty_db))) ∧
  counts_fit (stored_count 1 2 (db_file (idle empty_db))) [3; -5; 2] ∧
  ∃ w' w'',
    for_each [3; -5; 2] (Database.increment_user_reactions 1 2) (idle empty_db) = Ret tt w' ∧
    Database.get_user_reactions 1 2 w' = Ret 0 w''.
Proof.
  assert (Hstored : int64 (stored_count 1 2 (db_file (idle empty_db))))
    by (vm_compute; split; [discriminate | reflexivity]).
  assert (Hfit : counts_fit (stored_count 1 2 (db_file (idle empty_db))) [3; -5; 2])
    by (vm_compute; repeat split; discriminate).
  split; [reflexivity|]. split; [exact Hstored|]. split; [exact Hfit|].
  destruct (increments_add_up 1 2 [3; -5; 2] (idle empty_db) eq_refl Hstored Hfit)
    as (w0 & w' & Hget & Hrun & (w'' & Hget') & _).
  exists w', w''. split; [exact Hrun | exact Hget'].
Defined.

Global Instance count_desc_total : Total Database.count_desc.
Proof. intros a b. unfold Database.count_desc. lia. Qed.
Global Instance count_desc_trans : Transitive Database.count_desc.
Proof. intros a b c. unfold Database.count_desc. lia. Qed.

Lemma guild_rows_NoDup (g : Z) (rows : list (Z * Z * UserReaction)) :
  NoDup (rows.*1) →
  NoDup ((omap (fun row : Z * Z * UserReaction =>
                  if decide (fst (fst row) = g)
                  then Some (snd (fst row), reaction_count (snd row)) else None) rows).*1).
Proof.
  induction rows as [|[[g' u] r] rest IH]; simpl; intros Hnd; [constructor|].
  apply NoDup_cons in Hnd as [Hfresh Hnd].
  destruct (decide (g' = g)) as [->|Hne]; simpl; [|auto].
  apply NoDup_cons. split; [|auto].
  intros Hin. apply Hfresh.
  apply list_elem_of_fmap in Hin as ([u' n] & Hu & Hin). simpl in Hu. subst u'.
  apply list_elem_of_omap in Hin as ([[g'' u''] r'] & Hin & Hrow). simpl in Hrow.
  destruct (decide (g'' = g)) as [->|]; [|discriminate]. injection Hrow as -> _.
  apply list_elem_of_fmap. exists (g, u, r'). split; [reflexivity | exact Hin].
Qed.

Lemma select_guild_reactions_listing g conn :
  NoDup ((Database.select_guild_reactions g conn).*1) ∧
  StronglySorted Database.count_desc (Database.select_guild_reactions g conn) ∧
  (∀ u n, (u, n) ∈ Database.select_guild_reactions g conn
          ↔ reaction_count <$> user_reactions conn !! (g, u) = Some n).
Proof.
  unfold Database.select_guild_reactions. split; [|split].
  - rewrite merge_sort_Permutation. apply guild_rows_NoDup, NoDup_fst_map_to_list.
  - apply StronglySorted_merge_sort; apply _.
  - intros u n. rewrite merge_sort_Permutation, list_elem_of_omap. split.
    + intros ([[g' u'] r] & Hin & Hrow). apply elem_of_map_to_list in Hin. simpl in Hrow.
      destruct (decide (g' = g)) as [->|]; [|discriminate].
      injection Hrow as -> <-. now rewrite Hin.
    + intros Hrow. destruct (user_reactions conn !! (g, u)) as [r|] eqn:Hr; [|discriminate].
      injection Hrow as <-. exists (g, u, r). split; [now apply elem_of_map_to_list|].
      simpl. now rewrite decide_True.
Qed.

(** X14.  [get_guild_reactions], with the lock free, changes nothing and
    returns the users that have a counter in the guild, each once, with
    their counts, highest count first; every count listed is the one
    [get_user_reactions] returns for that user, and counters of other guilds
    are not listed. *)
Theorem get_guild_reactions_lists_guild (g : Z) (w : World) :
  db_lock w = false →
  ∃ rows w',
    Database.get_guild_reactions g w = Ret rows w' ∧
    db_file w' = db_file w ∧
    NoDup (rows.*1) ∧
    StronglySorted Database.count_desc rows ∧
    (∀ u n, (u, n) ∈ rows ↔ reaction_count <$> user_reactions (db_file w) !! (g, u) = Some n) ∧
    (∀ u n, (u, n) ∈ rows → ∃ w'', Database.get_user_reactions g u w = Ret n w'').
Proof.
  intros Hfree. unfold Database.get_guild_reactions. enter_guard Hfree.
  destruct (select_guild_reactions_listing g (db_file w)) as (Hnd & Hsorted & Hin).
  eexists _, _. split; [reflexivity|]. split; [reflexivity|].
  split; [exact Hnd|]. split; [exact Hsorted|]. split; [exact Hin|].
  intros u n Hrow. apply Hin in Hrow.
  destruct (get_user_reactions_spec g u w Hfree) as (w'' & Hget & _).
  exists w''. rewrite Hget. unfold stored_count, Database.select_reaction_count.
  now rewrite Hrow.
Qed.

Lemma get_guild_reactions_lists_guild_witness :
  db_lock (idle empty_db) = false ∧
  ∃ w', Database.get_guild_reactions 1 (idle empty_db) = Ret [] w'.
Proof.
  split; [reflexivity|].
  destruct (get_guild_reactions_lists_guild 1 (idle empty_db) eq_refl)
    as (rows & w' & Hrun & _ & _ & _ & Hin & _).
  exists w'. rewrite Hrun. f_equal.
  destruct rows as [|[u n] rest]; [reflexivity|].
  assert (Hrow : reaction_count <$> user_reactions (db_file (idle empty_db)) !! (1, u) = Some n)
    by (apply Hin; left).
  discriminate Hrow.
Defined.

(** ** Reaction counters: the nested dict of all guilds *)

Lemma dict_get_set_eq {V} key (v : V) d : dict_get key (dict_set key v d) = Some v.
Proof.
  induction d as [|[k v0] rest IH]; simpl.
  - now rewrite decide_True.
  - destruct (decide (k = key)) as [->|Hne]; simpl.
    + now rewrite decide_True.
    + now rewrite decide_False.
Qed.

Lemma dict_get_set_ne {V} key other (v : V) d :
  other ≠ key → dict_get other (dict_set key v d) = dict_get other d.
Proof.
  intros Hne. induction d as [|[k v0] rest IH]; simpl.
  - now rewrite decide_False by congruence.
  - destruct (decide (k = key)) as [->|Hk]; simpl.
    + now rewrite !decide_False by congruence.
    + destruct (decide (k = other)); [reflexivity | exact IH].
Qed.

Lemma dict_set_set {V} key (v0 v : V) d :
  dict_set key v (dict_set key v0 d) = dict_set key v d.
Proof.
  induction d as [|[k v1] rest IH]; simpl.
  - now rewrite decide_True.
  - destruct (decide (k = key)) as [->|Hne]; simpl.
    + now rewrite decide_True.
    + now rewrite decide_False, IH.
Qed.

Lemma group_reactions_step g u n rest d :
  Database.group_reactions ((g, u, n) :: rest) d
  = Database.group_reactions rest
      (dict_set (pretty g)
         (dict_set (pretty u) n (default [] (dict_get (pretty g) d))) d).
Proof.
  cbn [Database.group_reactions].
  destruct (dict_get (pretty g) d) as [inner|] eqn:Hinner.
  - now rewrite Hinner.
  - now rewrite dict_get_set_eq, dict_set_set.
Qed.

Lemma group_reactions_other rows :
  ∀ d kg ku,
    (∀ g u n, (g, u, n) ∈ rows → ¬ (pretty g = kg ∧ pretty u = ku)) →
    dict_get kg (Database.group_reactions rows d) ≫= dict_get ku
    = dict_get kg d ≫= dict_get ku.
Proof.
  induction rows as [|[[g u] n] rest IH]; intros d kg ku Hnone; [reflexivity|].
  rewrite group_reactions_step, IH
    by (intros g' u' n' Hin; apply (Hnone g' u' n'); now right).
  assert (Hhead : ¬ (pretty g = kg ∧ pretty u = ku)) by (apply (Hnone g u n); left).
  destruct (decide (kg = pretty g)) as [->|Hg].
  - rewrite dict_get_set_eq. simpl.
    rewrite dict_get_set_ne by (intros ->; apply Hhead; split; reflexivity).
    now destruct (dict_get (pretty g) d).
  - now rewrite dict_get_set_ne.
Qed.

Lemma group_reactions_row rows :
  ∀ d g u n,
    NoDup (fst <$> rows) →
    (g, u, n) ∈ rows →
    dict_get (pretty g) (Database.group_reactions rows d) ≫= dict_get (pretty u) = Some n.
Proof.
  induction rows as [|[[g' u'] n'] rest IH]; intros d g u n Hnd Hin; [inversion Hin|].
  apply NoDup_cons in Hnd as [Hfresh Hnd].
  apply elem_of_cons in Hin as [Heq|Hin].
  - injection Heq as <- <- <-.
    rewrite group_reactions_step, group_reactions_other.
    + rewrite dict_get_set_eq. simpl. apply dict_get_set_eq.
    + intros g2 u2 n2 Hin [Hg Hu]. apply (inj pretty) in Hg, Hu. subst g2 u2.
      apply Hfresh. apply list_elem_of_fmap. exists (g, u, n2). split; [reflexivity | exact Hin].
  - rewrite group_reactions_step. now apply IH.
Qed.

Lemma select_all_reactions_rows conn :
  NoDup (fst <$> Database.select_all_reactions conn) ∧
  (∀ g u n, (g, u, n) ∈ Database.select_all_reactions conn
            ↔ reaction_count <$> user_reactions conn !! (g, u) = Some n).
Proof.
  unfold Database.select_all_reactions. split.
  - rewrite merge_sort_Permutation.
    change (List.map ?f ?l) with (f <$> l). rewrite <- list_fmap_compose.
    erewrite list_fmap_ext; [apply (NoDup_fst_map_to_list (user_reactions conn))|].
    intros i [[g u] r] _. reflexivity.
  - intros g u n. rewrite merge_sort_Permutation.
    change (List.map ?f ?l) with (f <$> l). rewrite list_elem_of_fmap. split.
    + intros ([[g' u'] r] & Heq & Hin). simpl in Heq. injection Heq as -> -> ->.
      apply elem_of_map_to_list in Hin. now rewrite Hin.
    + intros Hrow. destruct (user_reactions conn !! (g, u)) as [r|] eqn:Hr; [|discriminate].
      injection Hrow as <-. exists (g, u, r). split; [reflexivity|].
      now apply elem_of_map_to_list.
Qed.

(** X15.  [get_all_reactions], with the lock free, changes nothing and
    returns a dict of dicts in which, for every guild and user, the entry
    under the decimal text of the guild id and then of the user id is the
    stored count of that pair, and there is no such entry when the pair has
    no counter.  [config.load_reactions] is the same operation. *)
Theorem get_all_reactions_groups (w : World) :
  db_lock w = false →
  Config.load_reactions w = Database.get_all_reactions w ∧
  ∃ reactions w',
    Database.get_all_reactions w = Ret reactions w' ∧
    db_file w' = db_file w ∧
    (∀ g u, dict_get (pretty g) reactions ≫= dict_get (pretty u)
            = reaction_count <$> user_reactions (db_file w) !! (g, u)).
Proof.
  intros Hfree. split; [reflexivity|].
  unfold Database.get_all_reactions. enter_guard Hfree.
  eexists _, _. split; [reflexivity|]. split; [reflexivity|].
  intros g u. destruct (select_all_reactions_rows (db_file w)) as (Hnd & Hin).
  destruct (reaction_count <$> user_reactions (db_file w) !! (g, u)) as [n|] eqn:Hrow.
  - apply group_reactions_row; [exact Hnd | now apply Hin].
  - rewrite group_reactions_other; [reflexivity|].
    intros g2 u2 n2 Hin2 [Hg Hu]. apply (inj pretty) in Hg, Hu. subst g2 u2.
    apply Hin in Hin2. congruence.
Qed.

Lemma get_all_reactions_groups_witness :
  db_lock (idle empty_db) = false ∧
  ∃ reactions w',
    Database.get_all_reactions (idle empty_db) = Ret reactions w' ∧
    dict_get "1" reactions ≫= dict_get "2" = None.
Proof.
  split; [reflexivity|].
  destruct (get_all_reactions_groups (idle empty_db) eq_refl)
    as (_ & reactions & w' & Hrun & _ & Hlook).
  exists reactions, w'. split; [exact Hrun|]. exact (Hlook 1 2).
Defined.

(** ** Saving reaction counts *)

















(** ** The guard is not reentrant *)

(** X18.  A guard body that begins by entering the guard again never gets
    past that point, whatever the inner body and whatever would follow:
    started with the lock free, the outer call blocks at the inner request
    for the lock, with the lock held, the outer connection open and nothing
    committed. *)
Theorem guard_is_not_reentrant {A B} (inner : Conn → Op (B * Conn))
    (following : B → Conn → Op (A * Conn)) (w : World) :
  db_lock w = false →
  get_db_connection (fun conn => do x <- get_db_connection inner; following x conn) w
    = Blocked (log EvAcquireWhileHeld (enter w)) ∧
  db_lock (log EvAcquireWhileHeld (enter w)) = true ∧
  open_connections (log EvAcquireWhileHeld (enter w)) = S (open_connections w) ∧
  db_file (log EvAcquireWhileHeld (enter w)) = db_file w ∧
  trace (log EvAcquireWhileHeld (enter w))
    = trace w ++ [EvAcquire; EvMakedirs; EvConnect; EvAcquireWhileHeld].
Proof.
  intros Hfree. split.
  - apply guard_blocks; [exact Hfree|]. apply bind_blocked. now apply guard_held.
  - repeat split. simpl. now rewrite <- !app_assoc.
Qed.

Lemma guard_is_not_reentrant_witness :
  db_lock (idle empty_db) = false ∧
  result_of (get_db_connection
               (fun conn => do x <- Database.get_ticket "abcd1234"; ret (x, conn))
               (idle empty_db)) = None.
Proof.
  split; [reflexivity|].
  destruct (guard_is_not_reentrant
              (fun conn => match Database.select_ticket "abcd1234" conn with
                           | Some t => ret (Some t, conn)
                           | None => ret (None, conn)
                           end)
              (fun x conn => ret (x, conn)) (idle empty_db) eq_refl) as (Hrun & _).
  unfold Database.get_ticket. now rewrite Hrun.
Defined.

(** ** The form of a ticket id *)

Lemma hex_digit_is_lower_hex d : is_lower_hex (hex_digit d) = true.
Proof. unfold hex_digit. repeat case_match; reflexivity. Qed.

(** X19.  The id [tickets.create_ticket] generates is always 8 characters
    long and every character of it is one of 0-9 and a-f. *)
Theorem ticket_id_is_lower_hex (w : World) :
  String.length (next_ticket_id w) = 8%nat ∧ all_lower_hex (next_ticket_id w) = true.
Proof.
  split; [apply ticket_id_length|].
  unfold next_ticket_id, str_uuid, hex32.
  cbv [hex_onto substring append String.app all_lower_hex].
  now rewrite !hex_digit_is_lower_hex.
Qed.

(** ** Creating, closing and the listings *)

Lemma get_open_tickets_spec w :
  db_lock w = false →
  ∃ rows w',
    Database.get_open_tickets w = Ret rows w' ∧
    (∀ id t, (id, t) ∈ rows ↔ tickets (db_file w) !! id = Some t ∧ status t = "open"%string).
Proof.
  intros Hfree. unfold Database.get_open_tickets.
  rewrite (get_all_tickets_spec (Some "open"%string) w Hfree).
  destruct (select_tickets_listing (Some "open"%string) (db_file w)) as (_ & _ & Hin).
  eexists _, _. split; [reflexivity|]. intros id t. rewrite Hin. simpl.
  split; [intros [? Hst]; split; [assumption|]; specialize (Hst eq_refl); congruence
         | intros [? ->]; split; [assumption | reflexivity]].
Qed.




Lemma close_ticket_db ticket_id closed_by response responder w t :
  db_lock w = false →
  tickets (db_file w) !! ticket_id = Some t →
  ∃ w' t',
    Database.close_ticket ticket_id closed_by response responder w = Ret true w' ∧
    db_lock w' = false ∧
    tickets (db_file w') !! ticket_id = Some t' ∧
    status t' = ("closed_by_" +:+ closed_by)%string ∧
    (∀ other, other ≠ ticket_id →
       tickets (db_file w') !! other = tickets (db_file w) !! other).
Proof.
  intros Hfree Hrow.
  assert (Hupd : ∀ w1 ups, ups ≠ [] → db_lock w1 = false → db_file w1 = db_file w →
            ∃ w', Database.update_ticket ticket_id ups w1 = Ret true w' ∧
                  db_lock w' = false ∧
                  tickets (db_file w') !! ticket_id
                    = Some (fold_left Database.assign_ticket ups t) ∧
                  (∀ other, other ≠ ticket_id →
                     tickets (db_file w') !! other = tickets (db_file w) !! other)).
  { intros w1 ups Hups Hfree1 Hdb1.
    destruct (update_ticket_spec ticket_id w1 Hfree1 ups Hups) as (w' & Hrun & Hfree' & Hdb').
    exists w'. rewrite Hrun, Hdb', Hdb1, Hrow. simpl. rewrite lookup_alter_eq, Hrow.
    repeat split; auto. intros other Hne. now rewrite lookup_alter_ne. }
  unfold Database.close_ticket, datetime_now. unfold bind at 1.
  destruct (truthy_str responder); [unfold bind at 1|]; destruct (truthy_str response);
    match goal with
    | |- context [Database.update_ticket _ ?ups ?w1] =>
        destruct (Hupd w1 ups) as (w' & Hrun & Hfree' & Hrow' & Hrest);
          [ discriminate | exact Hfree | reflexivity | ]
    end;
    exists w'; eexists; (split; [exact Hrun|]); (split; [exact Hfree'|]);
    (split; [exact Hrow'|]); (split; [reflexivity | exact Hrest]).
Qed.

(** X21.  After [close_ticket] on a stored ticket (lock free), whoever closes
    it and with or without a response, [get_open_tickets] no longer lists
    that ticket, and lists every other ticket exactly as it would have
    before the call. *)
Theorem closed_ticket_leaves_open_list (ticket_id closed_by : string)
    (response responder : option string) (w : World) (t : Ticket) :
  db_lock w = false →
  tickets (db_file w) !! ticket_id = Some t →
  ∃ w' rows w'',
    Database.close_ticket ticket_id closed_by response responder w = Ret true w' ∧
    Database.get_open_tickets w' = Ret rows w'' ∧
    (ticket_id ∉ rows.*1) ∧
    (∀ id t', (id, t') ∈ rows
              ↔ id ≠ ticket_id ∧ tickets (db_file w) !! id = Some t' ∧
                status t' = "open"%string).
Proof.
  intros Hfree Hrow.
  destruct (close_ticket_db ticket_id closed_by response responder w t Hfree Hrow)
    as (w' & t' & Hrun & Hfree' & Hrow' & Hstatus & Hrest).
  destruct (get_open_tickets_spec w' Hfree') as (rows & w'' & Hlist & Hin).
  assert (Hclosed : status t' ≠ "open"%string) by (rewrite Hstatus; discriminate).
  exists w', rows, w''. split; [exact Hrun|]. split; [exact Hlist|]. split.
  - intros Hmem. apply list_elem_of_fmap in Hmem as ([id t2] & Hid & Hmem).
    simpl in Hid. subst id. apply Hin in Hmem as [Hrow2 Hopen]. congruence.
  - intros id t2. rewrite Hin. split.
    + intros [Hrow2 Hopen]. destruct (decide (id = ticket_id)) as [->|Hne]; [congruence|].
      rewrite Hrest in Hrow2 by exact Hne. auto.
    + intros (Hne & Hrow2 & Hopen). rewrite Hrest by exact Hne. auto.
Qed.

Lemma closed_ticket_leaves_open_list_witness :
  db_lock (idle one_ticket_db) = false ∧
  tickets (db_file (idle one_ticket_db)) !! "abcd1234"%string = Some a_ticket ∧
  ∃ w' w'',
    Database.close_ticket "abcd1234" "admin" None None (idle one_ticket_db) = Ret true w' ∧
    Database.get_open_tickets w' = Ret [] w''.
Proof.
  split; [reflexivity|]. split; [reflexivity|].
  destruct (closed_ticket_leaves_open_list "abcd1234" "admin" None None (idle one_ticket_db)
              a_ticket eq_refl eq_refl) as (w' & rows & w'' & Hrun & Hlist & _ & Hin).
  exists w', w''. split; [exact Hrun|]. rewrite Hlist. f_equal.
  destruct rows as [|[id t'] rest]; [reflexivity|].
  destruct (proj1 (Hin id t')) as (Hne & Hrow & _); [left|].
  exfalso. apply Hne. clear -Hrow.
  destruct (decide (id = "abcd1234"%string)) as [Heq|Hne]; [exact Heq|].
  unfold idle, one_ticket_db in Hrow. simpl in Hrow.
  rewrite lookup_insert_ne in Hrow by congruence. discriminate Hrow.
Defined.

(** ** The statements of set_guild_config *)

(** X22.  The statements of [set_guild_config] that follow its read, run on
    a connection where the guild has no row and [existing] is what the read
    finds there, insert a row with the given channel fields, the fields not
    given left empty, and with [created_at] and [updated_at] both at the
    time of the statement; run again with another field on the connection
    they left, they set that field, keep the first, keep [created_at] and
    move [updated_at] to the time of the second statement.  Rows of other
    guilds are untouched throughout. *)
Theorem set_guild_config_statements_insert_then_update (g x y : Z) (conn : Conn) (w : World) :
  guild_config conn !! g = None →
  ∃ conn1 conn2 w2,
    Database.set_guild_config_write g (Some x) None None
      (Database.select_guild_config g conn) conn w = Ret (tt, conn1) (tick w) ∧
    guild_config conn1 !! g
      = Some (mkGuildConfig (Some x) None None (utc_clock w (ticks w)) (utc_clock w (ticks w))) ∧
    Database.set_guild_config_write g None (Some y) None
      (Database.select_guild_config g conn1) conn1 (tick w) = Ret (tt, conn2) w2 ∧
    guild_config conn2 !! g
      = Some (mkGuildConfig (Some x) (Some y) None (utc_clock w (ticks w))
                            (utc_clock w (S (ticks w)))) ∧
    (∀ other, other ≠ g → guild_config conn2 !! other = guild_config conn !! other).
Proof.
  intros Hnone.
  set (r0 := mkGuildConfig (Some x) None None (utc_clock w (ticks w)) (utc_clock w (ticks w))).
  set (conn1 := with_guild_config (insert g r0) conn).
  assert (Hrow1 : guild_config conn1 !! g = Some r0) by (simpl; apply lookup_insert_eq).
  exists conn1. eexists _, _. split; [|split; [exact Hrow1|split; [|split]]].
  - unfold Database.select_guild_config. rewrite Hnone.
    unfold Database.set_guild_config_write, Database.insert_guild_config.
    unfold bind, current_timestamp, execute, ret. now rewrite Hnone.
  - unfold Database.select_guild_config. rewrite Hrow1.
    unfold Database.set_guild_config_write, Database.guild_updates,
      Database.update_guild_config. simpl.
    unfold bind, current_timestamp, execute, ret. reflexivity.
  - simpl. rewrite lookup_alter_eq, lookup_insert_eq. reflexivity.
  - intros other Hne. simpl. rewrite lookup_alter_ne, lookup_insert_ne by congruence.
    reflexivity.
Qed.

Lemma set_guild_config_statements_insert_then_update_witness :
  guild_config empty_db !! 1 = None ∧
  ∃ conn1 conn2 w2,
    Database.set_guild_config_write 1 (Some 10) None None
      (Database.select_guild_config 1 empty_db) empty_db (idle empty_db)
      = Ret (tt, conn1) (tick (idle empty_db)) ∧
    Database.set_guild_config_write 1 None (Some 20) None
      (Database.select_guild_config 1 conn1) conn1 (tick (idle empty_db))
      = Ret (tt, conn2) w2 ∧
    guild_config conn2 !! 1 = Some (mkGuildConfig (Some 10) (Some 20) None 0 1000000).
Proof.
  split; [reflexivity|].
  destruct (set_guild_config_statements_insert_then_update 1 10 20 empty_db (idle empty_db)
              eq_refl) as (conn1 & conn2 & w2 & Hrun1 & _ & Hrun2 & Hrow & _).
  exists conn1, conn2, w2. split; [exact Hrun1|]. split; [exact Hrun2 | exact Hrow].
Defined.

(** ** Cleaning up when nothing qualifies *)

Lemma collect_nothing cutoff (items : list (string * Ticket)) :
  (∀ id t, (id, t) ∈ items → old_and_closed cutoff t = false) →
  Tickets.collect_old_closed cutoff items = [].
Proof.
  intros Hnone. destruct (Tickets.collect_old_closed cutoff items) as [|id rest] eqn:Hcollect;
    [reflexivity|].
  assert (Hin : id ∈ Tickets.collect_old_closed cutoff items) by (rewrite Hcollect; left).
  apply collect_old_closed_spec in Hin as (t & Hin & Hold).
  rewrite (Hnone id t Hin) in Hold. discriminate.
Qed.

(** X23.  When the cut-off is a date of the calendar and no stored ticket
    is both of a status beginning with "closed" and created before it (in
    particular when no ticket is stored), [cleanup_old_tickets], started
    with the lock free, returns 0 and leaves the stored state exactly as it
    was. *)
Theorem cleanup_without_candidates (days_old : Z) (w : World) :
  db_lock w = false →
  -999999999 <= days_old <= 999999999 →
  datetime_min <= local_clock w (ticks w) - timedelta_days days_old <= datetime_max →
  (∀ id t, tickets (db_file w) !! id = Some t →
           String.prefix "closed" (status t) = true →
           local_clock w (ticks w) - timedelta_days days_old <= created_at t) →
  ∃ w', Tickets.cleanup_old_tickets days_old w = Ret 0 w' ∧
        db_file w' = db_file w ∧
        db_lock w' = false.
Proof.
  intros Hfree Hdays Hcutoff Hnone.
  rewrite (cleanup_with_cutoff days_old w Hfree Hdays Hcutoff).
  rewrite collect_nothing.
  - eexists. split; [reflexivity|]. split; reflexivity.
  - intros id t Hin.
    apply sorted_rows_stored in Hin. unfold old_and_closed.
    destruct (String.prefix "closed" (status t)) eqn:Hclosed; [|reflexivity].
    apply Z.ltb_ge. now apply (Hnone id t).
Qed.

Lemma cleanup_without_candidates_witness :
  db_lock (on_day500 one_ticket_db) = false ∧
  -999999999 <= 30 <= 999999999 ∧
  datetime_min
    <= local_clock (on_day500 one_ticket_db) (ticks (on_day500 one_ticket_db))
       - timedelta_days 30 <= datetime_max ∧
  ∃ w', Tickets.cleanup_old_tickets 30 (on_day500 one_ticket_db) = Ret 0 w' ∧
        db_file w' = one_ticket_db.
Proof.
  assert (Hdays : -999999999 <= 30 <= 999999999) by lia.
  assert (Hcutoff : datetime_min
            <= local_clock (on_day500 one_ticket_db) (ticks (on_day500 one_ticket_db))
               - timedelta_days 30 <= datetime_max)
    by (vm_compute; split; discriminate).
  split; [reflexivity|]. split; [exact Hdays|]. split; [exact Hcutoff|].
  destruct (cleanup_without_candidates 30 (on_day500 one_ticket_db) eq_refl Hdays Hcutoff)
    as (w' & Hrun & Hdb & _).
  - intros id t Hrow Hclosed. exfalso.
    destruct (decide (id = "abcd1234"%string)) as [->|Hne].
    + injection Hrow as <-. discriminate Hclosed.
    + unfold on_day500, one_ticket_db in Hrow. simpl in Hrow.
      rewrite lookup_insert_ne in Hrow by congruence. discriminate Hrow.
  - exists w'. split; [exact Hrun | exact Hdb].
Defined.

(** ** Saving back what was loaded *)

(** X24.  Saving with [save_authorized_users] what [load_authorized_users]
    has just returned changes nothing: both calls return and the stored
    state is the one before them. *)
Theorem save_loaded_authorized_users (w : World) :
  db_lock w = false →
  ∃ auth_data w1 w2,
    Auth.load_authorized_users w = Ret auth_data w1 ∧
    Auth.save_authorized_users auth_data w1 = Ret tt w2 ∧
    db_file w2 = db_file w ∧
    db_lock w2 = false.
Proof.
  intros Hfree.
  destruct (get_admin_users_spec w Hfree) as (w1 & Hrun1 & Hfree1 & Hdb1).
  destruct (get_admin_users_spec w1 Hfree1) as (w2 & Hrun2 & Hfree2 & Hdb2).
  exists (Some ((Database.scan (admin_users (db_file w))).*1)), w1, w2.
  split; [|split; [|split; [congruence | exact Hfree2]]].
  - unfold Auth.load_authorized_users, Auth.db_get_admin_users.
    now rewrite (bind_ret _ _ _ _ _ Hrun1).
  - unfold Auth.save_authorized_users, Auth.db_get_admin_users.
    rewrite (bind_ret _ _ _ _ _ Hrun2), Hdb1.
    rewrite difference_diag_L, elements_empty. reflexivity.
Qed.

Lemma save_loaded_authorized_users_witness :
  db_lock (idle empty_db) = false ∧
  ∃ auth_data w1 w2,
    Auth.load_authorized_users (idle empty_db) = Ret auth_data w1 ∧
    Auth.save_authorized_users auth_data w1 = Ret tt w2 ∧
    db_file w2 = empty_db.
Proof.
  split; [reflexivity|].
  destruct (save_loaded_authorized_users (idle empty_db) eq_refl)
    as (auth_data & w1 & w2 & Hload & Hsave & Hdb & _).
  exists auth_data, w1, w2. auto.
Defined.
